(** * Timeline dashboard ([app.py]): a shallow embedding and its properties

    The script builds a scatter-style timeline from a pandas [DataFrame],
    accepts an uploaded workbook, serves a template workbook and shows an
    animated caption.  Python values are modelled as follows:

    - [str] is a UTF-8 encoded [string]; [len] and iteration go by code
      point ([py_chars]);
    - [int] is [Z] where the source receives it from outside, [nat] for
      the indices produced by [enumerate] and [range];
    - a raised exception is the left summand of [result];
    - a [dict] is an insertion-ordered association list ([dict]);
    - a pandas [Series] is a dtype and a list of cells, a [DataFrame] the
      insertion-ordered list of its named columns, the way the script
      spells its literal frames;
    - a plotly figure is the record of the properties the script sets;
      of plotly's validation, the check of a trace's [name] is modelled
      ([Go.name_valid]), the one a table's cells can fail.

    [pd.read_excel], [df.to_excel], [base64.b64decode] and
    [os.path.exists] are parameters of the functions that call them. *)

From Stdlib Require Import String Ascii List ZArith Arith Bool Lia.
From Stdlib Require Import Permutation Sorted DecimalString.
From Stdlib Require Strings.Byte.
Import ListNotations.
Open Scope string_scope.
Open Scope list_scope.
Open Scope nat_scope.

Set Implicit Arguments.

(** ** Python values *)

Module Py.

(** A byte [10xxxxxx] continues the code point begun before it. *)
Definition is_continuation (c : ascii) : bool :=
  let n := nat_of_ascii c in (128 <=? n) && (n <? 192).

(** The characters of a [str], one UTF-8 group per code point: what
    [for ch in s] yields. *)
Fixpoint py_chars (s : string) : list string :=
  match s with
  | EmptyString => []
  | String c s' =>
      match s' with
      | EmptyString => [String c EmptyString]
      | String c' _ =>
          if is_continuation c' then
            match py_chars s' with
            | g :: gs => String c g :: gs
            | [] => [String c EmptyString]
            end
          else String c EmptyString :: py_chars s'
      end
  end.

(** [len(s)] on a [str]. *)
Definition py_len (s : string) : nat := length (py_chars s).

(** [enumerate(l)]. *)
Definition enumerate (A : Type) (l : list A) : list (nat * A) :=
  combine (seq 0 (length l)) l.

(** [str(n)] for a non-negative [int], as an f-string field prints it. *)
Definition str_of_nat (n : nat) : string :=
  NilEmpty.string_of_uint (Nat.to_uint n).

(** [s.split(sep)] for a one-character separator. *)
Fixpoint split (sep : ascii) (s : string) : list string :=
  match s with
  | EmptyString => [EmptyString]
  | String c s' =>
      if Ascii.eqb c sep then EmptyString :: split sep s'
      else match split sep s' with
           | h :: t => String c h :: t
           | [] => [String c EmptyString]
           end
  end.

End Py.

(** ** pandas cells *)

(** The value of one cell.  [NaN] stands for every missing value ([NaN],
    [NaT], [None]); floating-point cells are not modelled. *)
Inductive cell : Type :=
| Timestamp (year month day : nat)
| Str (s : string)
| Int (z : Z)
| NaN.

Definition cell_eq_dec (a b : cell) : {a = b} + {a <> b}.
Proof.
  decide equality;
    auto using Nat.eq_dec, string_dec, Z.eq_dec.
Defined.

(** ** Exceptions *)

Inductive exn : Type :=
| KeyError (key : cell)
| AttributeError (msg : string)
| ValueError (msg : string)
| LibraryError (msg : string).   (* any other [Exception] of a library *)

Definition result (A : Type) : Type := (exn + A)%type.

Definition ret (A : Type) (a : A) : result A := inr a.
Definition raise (A : Type) (e : exn) : result A := inl e.
Definition bind (A B : Type) (m : result A) (k : A -> result B) : result B :=
  match m with
  | inl e => inl e
  | inr a => k a
  end.

Notation "x <- m ;; k" := (bind m (fun x => k))
  (at level 61, m at next level, right associativity).

(** ** Python dictionaries, insertion-ordered *)

Module Dict.
Section Dict.
Variable V : Type.

Definition dict : Type := list (cell * V).

(** [d[k] = v]: overwrite in place, or append a new key. *)
Fixpoint setitem (k : cell) (v : V) (d : dict) : dict :=
  match d with
  | [] => [(k, v)]
  | (k', v') :: d' =>
      if cell_eq_dec k k' then (k', v) :: d'
      else (k', v') :: setitem k v d'
  end.

(** [d[k]], raising [KeyError]. *)
Fixpoint getitem (d : dict) (k : cell) : result V :=
  match d with
  | [] => raise V (KeyError k)
  | (k', v') :: d' =>
      if cell_eq_dec k k' then ret v' else getitem d' k
  end.

(** [{k: v for k, v in items}]. *)
Definition of_items (items : list (cell * V)) : dict :=
  fold_left (fun d kv => setitem (fst kv) (snd kv) d) items [].

Definition keys (d : dict) : list cell := map fst d.
Definition values (d : dict) : list V := map snd d.
End Dict.
End Dict.

(** ** pandas Series and DataFrame *)

Module Pd.

Inductive dtype : Type := datetime64 | object | int64 | float64.

Definition dtype_eq_dec (a b : dtype) : {a = b} + {a <> b}.
Proof. decide equality. Defined.

Record Series : Type := mkSeries { dtype_of : dtype; values : list cell }.

(** Columns in insertion order.  Every column of a frame pandas builds
    has the length of the frame's index ([rectangular] below). *)
Definition DataFrame : Type := list (string * Series).

(** [len(df)]. *)
Definition len (df : DataFrame) : nat :=
  match df with
  | [] => 0
  | (_, s) :: _ => length (values s)
  end.

(** [df[col]], raising [KeyError] for an absent column. *)
Fixpoint getitem (df : DataFrame) (col : string) : result Series :=
  match df with
  | [] => raise Series (KeyError (Str col))
  | (c, s) :: df' => if string_dec col c then ret s else getitem df' col
  end.

(** [Series.unique()]: the distinct values in order of first
    appearance; [seen] is the hash table of values met so far. *)
Fixpoint unique_from (seen : list cell) (l : list cell) : list cell :=
  match l with
  | [] => []
  | v :: l' =>
      if in_dec cell_eq_dec v seen then unique_from seen l'
      else v :: unique_from (v :: seen) l'
  end.

Definition unique (s : Series) : list cell := unique_from [] (values s).

(** One comparison of [series == v]: a missing value equals nothing,
    itself included. *)
Definition cell_eqb (a b : cell) : bool :=
  match a, b with
  | NaN, _ | _, NaN => false
  | _, _ => if cell_eq_dec a b then true else false
  end.

(** [series == v], the boolean mask. *)
Definition eq_mask (s : Series) (v : cell) : list bool :=
  map (fun a => cell_eqb a v) (values s).

Fixpoint select (A : Type) (mask : list bool) (l : list A) : list A :=
  match mask, l with
  | b :: mask', a :: l' =>
      if b then a :: select mask' l' else select mask' l'
  | _, _ => []
  end.

(** [df[mask]]: the rows where the mask holds, dtypes kept. *)
Definition loc (df : DataFrame) (mask : list bool) : DataFrame :=
  map (fun cs => (fst cs, mkSeries (dtype_of (snd cs))
                                   (select mask (values (snd cs))))) df.

Definition pad2 (n : nat) : string :=
  if n <? 10 then ("0" ++ Py.str_of_nat n)%string else Py.str_of_nat n.

(** [series.dt.strftime('%m-%d')]: the accessor exists on datetime
    columns only; a missing date formats to a missing label. *)
Definition strftime_md (v : cell) : cell :=
  match v with
  | Timestamp _ m d => Str (pad2 m ++ "-" ++ pad2 d)%string
  | _ => NaN
  end.

Definition dt_strftime_md (s : Series) : result Series :=
  match dtype_of s with
  | datetime64 => ret (mkSeries object (map strftime_md (values s)))
  | _ => raise Series
           (AttributeError "Can only use .dt accessor with datetimelike values")
  end.

(** One record of [df.to_dict('records')]. *)
Definition record : Type := list (string * cell).

(** [df.to_dict('records')]: one dict per row, keyed by column. *)
Definition to_dict_records (df : DataFrame) : list record :=
  map (fun i => map (fun cs => (fst cs, nth i (values (snd cs)) NaN)) df)
      (seq 0 (len df)).

Fixpoint record_get (r : record) (col : string) : cell :=
  match r with
  | [] => NaN
  | (c, v) :: r' => if string_dec col c then v else record_get r' col
  end.

(** Column labels of [pd.DataFrame(records)]: the keys in order of
    first appearance. *)
Fixpoint add_keys (seen : list string) (ks : list string) : list string :=
  match ks with
  | [] => seen
  | k :: ks' =>
      if in_dec string_dec k seen then add_keys seen ks'
      else add_keys (seen ++ [k]) ks'
  end.

Definition record_columns (recs : list record) : list string :=
  fold_left (fun seen r => add_keys seen (map fst r)) recs [].

Definition is_timestamp (v : cell) : bool :=
  match v with Timestamp _ _ _ => true | _ => false end.
Definition is_int (v : cell) : bool :=
  match v with Int _ => true | _ => false end.
Definition is_nan (v : cell) : bool :=
  match v with NaN => true | _ => false end.

(** dtype inference of the constructor on one column of Python
    objects: timestamps (missing ones allowed) make a datetime column,
    integers an integer column, integers with gaps and columns of
    nothing but missing values a float column, anything else an object
    column. *)
Definition infer_dtype (vs : list cell) : dtype :=
  if existsb is_timestamp vs
     && forallb (fun v => is_timestamp v || is_nan v) vs then datetime64
  else if existsb is_int vs && forallb is_int vs then int64
  else if existsb (fun v => is_int v || is_nan v) vs
          && forallb (fun v => is_int v || is_nan v) vs then float64
  else object.

(** [pd.DataFrame(records)]. *)
Definition of_records (recs : list record) : DataFrame :=
  map (fun c =>
         let vs := map (fun r => record_get r c) recs in
         (c, mkSeries (infer_dtype vs) vs))
      (record_columns recs).

(** Every column is as long as the frame. *)
Definition rectangular (df : DataFrame) : bool :=
  forallb (fun cs => length (values (snd cs)) =? len df) df.

End Pd.

(** ** The chart description ([plotly.graph_objects as go]) *)

Module Go.

Record Line : Type := mkLine { line_width : nat; line_color : string }.

Record Marker : Type :=
  mkMarker { size : nat; color : string; line : Line }.

(** One [go.Scatter] trace: a marker series. *)
Record Scatter : Type := mkScatter {
  x : Pd.Series;
  y : list nat;
  mode : string;
  text : Pd.Series;
  textposition : list string;
  hovertext : Pd.Series;
  hoverinfo : string;
  marker : Marker;
  name : cell
}.

Record YAxis : Type := mkYAxis {
  tickvals : list nat;
  ticktext : list cell;
  yaxis_title : string
}.

(** The keywords of [fig.update_layout] and the range set by
    [fig.update_xaxes]; [title_x] keeps its decimal literal. *)
Record Layout : Type := mkLayout {
  title : string;
  title_x : string;
  xaxis_title : string;
  yaxis : YAxis;
  plot_bgcolor : string;
  hovermode : string;
  showlegend : bool;
  template : string;
  height : nat;
  autosize : bool;
  xaxis_range : option (string * string)
}.

Record Figure : Type := mkFigure {
  data : list Scatter;
  layout : option Layout
}.

(** plotly's check of a trace's [name].  A [str] passes, and so do
    [None] and Python's own numbers, which are printed; every other
    object is refused.  What the script passes is an element of the
    array [unique()] returned, and that depends on the column: an
    object column hands over the Python objects it holds, a float
    column numpy floats, which are Python floats, an integer column
    numpy integers and a datetime column numpy datetimes, which are
    neither. *)
Definition name_valid (dt : Pd.dtype) (v : cell) : bool :=
  match v with
  | Str _ => true
  | Timestamp _ _ _ => false
  | Int _ | NaN =>
      match dt with
      | Pd.object | Pd.float64 => true
      | Pd.int64 | Pd.datetime64 => false
      end
  end.

(** The [ValueError] of that check; its message is abridged. *)
Definition name_error : exn :=
  ValueError "Invalid value received for the 'name' property of scatter".

(** [go.Scatter(...)] on the properties of [tr], the name being an
    element of a column of dtype [dt]: the trace, which keeps the name
    as it was passed, or plotly's [ValueError]. *)
Definition Scatter_new (dt : Pd.dtype) (tr : Scatter) : result Scatter :=
  if name_valid dt (name tr) then ret tr else raise Scatter name_error.

(** [go.Figure()]. *)
Definition Figure_new : Figure := mkFigure [] None.

(** [fig.add_trace(tr)]. *)
Definition add_trace (fig : Figure) (tr : Scatter) : Figure :=
  mkFigure (data fig ++ [tr]) (layout fig).

(** [fig.update_xaxes(range=[lo, hi])]. *)
Definition update_xaxes (fig : Figure) (lo hi : string) : Figure :=
  mkFigure (data fig)
    (match layout fig with
     | Some l =>
         Some (mkLayout (title l) (title_x l) (xaxis_title l) (yaxis l)
                 (plot_bgcolor l) (hovermode l) (showlegend l) (template l)
                 (height l) (autosize l) (Some (lo, hi)))
     | None => None
     end).

End Go.

(** ** The caption markup ([dash.html]) *)

Module Html.

Record Span : Type := mkSpan {
  span_children : string;
  span_className : string;
  span_style : list (string * nat)
}.

Record Div : Type := mkDiv {
  div_children : list Span;
  div_className : string;
  div_style : list (string * string)
}.

End Html.

(** ** [pd.to_datetime] on the date literals of the script *)

Module Datetime.

Definition digit (c : ascii) : option nat :=
  let n := nat_of_ascii c in
  if (48 <=? n) && (n <=? 57) then Some (n - 48) else None.

Fixpoint number (acc : nat) (l : list ascii) : option nat :=
  match l with
  | [] => Some acc
  | c :: l' =>
      match digit c with
      | Some d => number (10 * acc + d) l'
      | None => None
      end
  end.

(** A date written [YYYY-MM-DD], the only form the script passes. *)
Definition parse_iso (s : string) : option cell :=
  match list_ascii_of_string s with
  | [y1; y2; y3; y4; h1; m1; m2; h2; d1; d2] =>
      if Ascii.eqb h1 "-" && Ascii.eqb h2 "-" then
        match number 0 [y1; y2; y3; y4], number 0 [m1; m2],
              number 0 [d1; d2] with
        | Some yy, Some mm, Some dd =>
            if (1 <=? mm) && (mm <=? 12) && (1 <=? dd) && (dd <=? 31)
            then Some (Timestamp yy mm dd) else None
        | _, _, _ => None
        end
      else None
  | _ => None
  end.

Fixpoint parse_all (l : list string) : result (list cell) :=
  match l with
  | [] => ret []
  | s :: l' =>
      match parse_iso s with
      | Some t => ts <- parse_all l' ;; ret (t :: ts)
      | None => raise (list cell) (ValueError "Unknown datetime string format")
      end
  end.

(** [pd.to_datetime(list_of_str)]. *)
Definition to_datetime (l : list string) : result Pd.Series :=
  ts <- parse_all l ;; ret (Pd.mkSeries Pd.datetime64 ts).

End Datetime.

(** ** The script *)

Definition col_date : string := "日期".
Definition col_type : string := "事件类型".
Definition col_desc : string := "事件描述".

(** What [pd.read_excel] is given: a path, or an in-memory buffer. *)
Inductive excel_source : Type :=
| Path (p : string)
| BytesIO (b : list Byte.byte).

(** The frame literal of lines 15-19 and 91-95. *)
Definition sample_frame : result Pd.DataFrame :=
  dates <- Datetime.to_datetime ["2023-01-01"; "2023-05-01"; "2023-12-25"] ;;
  ret [ (col_date, dates);
        (col_type, Pd.mkSeries Pd.object
                     [Str "重要事件"; Str "日常任务"; Str "节假日"]);
        (col_desc, Pd.mkSeries Pd.object
                     [Str "描述1"; Str "描述2"; Str "描述3"]) ].

(** [generate_event_types], lines 25-32. *)
Definition rgba (i : nat) : string :=
  ("rgba(" ++ Py.str_of_nat ((i * 70) mod 255) ++ ", "
           ++ Py.str_of_nat ((i * 120) mod 255) ++ ", "
           ++ Py.str_of_nat ((i * 180) mod 255) ++ ", 0.7)")%string.

Definition generate_event_types (events_df : Pd.DataFrame)
  : result (list cell * Dict.dict string * Dict.dict nat) :=
  types <- Pd.getitem events_df col_type ;;
  let event_types := Pd.unique types in
  let color_map :=
    Dict.of_items
      (map (fun ie => (snd ie, rgba (fst ie))) (Py.enumerate event_types)) in
  let y_position_map :=
    Dict.of_items
      (map (fun ie => (snd ie, fst ie)) (Py.enumerate event_types)) in
  ret (event_types, color_map, y_position_map).

(** The inner loop of lines 44-49. *)
Definition text_positions (n : nat) : list string :=
  fold_left
    (fun text_position i =>
       if i mod 2 =? 0 then text_position ++ ["bottom center"]
       else text_position ++ ["top center"])
    (seq 0 n) [].

(** One pass of the loop body, lines 41-66: the trace of [event_type]. *)
Definition make_trace (events_df : Pd.DataFrame)
    (color_map : Dict.dict string) (y_position_map : Dict.dict nat)
    (event_type : cell) : result Go.Scatter :=
  types <- Pd.getitem events_df col_type ;;
  let event_data := Pd.loc events_df (Pd.eq_mask types event_type) in
  let text_position := text_positions (Pd.len event_data) in
  xs <- Pd.getitem event_data col_date ;;
  lane <- Dict.getitem y_position_map event_type ;;
  dates <- Pd.getitem event_data col_date ;;
  labels <- Pd.dt_strftime_md dates ;;
  hover <- Pd.getitem event_data col_desc ;;
  colour <- Dict.getitem color_map event_type ;;
  Go.Scatter_new (Pd.dtype_of types)
    (Go.mkScatter xs (repeat lane (Pd.len event_data)) "markers+text"
       labels text_position hover "text+x"
       (Go.mkMarker 12 colour (Go.mkLine 2 "black")) event_type).

(** The loop of line 40. *)
Fixpoint add_traces (events_df : Pd.DataFrame)
    (color_map : Dict.dict string) (y_position_map : Dict.dict nat)
    (event_types : list cell) (fig : Go.Figure) : result Go.Figure :=
  match event_types with
  | [] => ret fig
  | event_type :: rest =>
      tr <- make_trace events_df color_map y_position_map event_type ;;
      add_traces events_df color_map y_position_map rest (Go.add_trace fig tr)
  end.

(** [create_timeline], lines 35-87. *)
Definition create_timeline (events_df : Pd.DataFrame) : result Go.Figure :=
  tcy <- generate_event_types events_df ;;
  let '(event_types, color_map, y_position_map) := tcy in
  fig <- add_traces events_df color_map y_position_map event_types
           Go.Figure_new ;;
  let fig :=
    Go.mkFigure (Go.data fig)
      (Some (Go.mkLayout "我的大事件线 (2023-2024)" "0.5" "日期"
               (Go.mkYAxis (Dict.values y_position_map)
                           (Dict.keys y_position_map) "事件类型")
               "white" "closest" true "plotly_white" 500 true None)) in
  ret (Go.update_xaxes fig "2023-01-01" "2024-12-31").

(** [update_motivational_text], lines 227-255. *)
Definition caption_text : list string :=
  [ "2024年，岁月匆匆，回望过往，心中涌动着感激与希望。";
    "每一滴汗水，每一段努力，都在岁月的河流中留下痕迹。";
    "曾经的坚持与拼搏，化作了今天的坚韧与信心。";
    "感谢自己，感谢每一个奋斗的瞬间，感谢所有支持的人。";
    "未来的路充满未知，但我已准备好迎接一切挑战。";
    "每一步都在创造新的故事，属于我，属于我们的篇章。" ].

Definition update_motivational_text (n_intervals : Z) : list Html.Div :=
  let text := caption_text in
  let all_words :=
    fold_left
      (fun all_words i_sentence =>
         let i := fst i_sentence in
         let sentence := snd i_sentence in
         let sentence_words :=
           map (fun j_word =>
                  Html.mkSpan (snd j_word) "motivational-word"
                    [("--index", i * Py.py_len sentence + fst j_word)])
               (Py.enumerate (Py.py_chars sentence)) in
         all_words ++
           [Html.mkDiv sentence_words "motivational-line"
              [("animationDelay", (Py.str_of_nat (i * 2) ++ "s")%string)]])
      (Py.enumerate text) [] in
  if (Z.of_nat (length text) * 2 <=? n_intervals)%Z then all_words
  else all_words.

(** *** The parts that reach outside the process *)

Section Shell.

(** [os.path.exists]. *)
Variable os_path_exists : string -> bool.
(** [pd.read_excel], on a path or on a buffer. *)
Variable read_excel : excel_source -> result Pd.DataFrame.
(** [base64.b64decode]. *)
Variable b64decode : string -> result (list Byte.byte).
(** [df.to_excel(writer, index=False, sheet_name=...)] into a buffer. *)
Variable to_excel : Pd.DataFrame -> string -> list Byte.byte.

(** [load_default_events], lines 11-19. *)
Definition load_default_events : result Pd.DataFrame :=
  if os_path_exists "events.xlsx" then read_excel (Path "events.xlsx")
  else sample_frame.

(** [create_excel_template], lines 90-102: the bytes left in the
    buffer. *)
Definition create_excel_template : result (list Byte.byte) :=
  df <- sample_frame ;;
  ret (to_excel df "Sheet1").

(** The global of line 22, once start-up has succeeded. *)
Variable default_events_df : Pd.DataFrame.

(** [store_file], lines 194-204; the value returned becomes the data
    of the [file-store] component, which hands it on as [dcc_store]
    below has it.  [print(e)] only writes to standard output and is
    left out. *)
Definition store_file (contents : option string) (filename : option string)
  : result (option (list Pd.record)) :=
  match contents with
  | Some c =>
      match Py.split "," c with
      | [content_type; content_string] =>
          decoded <- b64decode content_string ;;
          match read_excel (BytesIO decoded) with
          | inr events_df => ret (Some (Pd.to_dict_records events_df))
          | inl e => ret (Some (Pd.to_dict_records default_events_df))
          end
      | _ => raise (option (list Pd.record))
               (ValueError "wrong number of values to unpack")
      end
  | None => ret None
  end.

(** The table [update_graph] draws, lines 213-216. *)
Definition events_df_of (data : option (list Pd.record)) : Pd.DataFrame :=
  match data with
  | None => default_events_df
  | Some d => Pd.of_records d
  end.

(** [update_graph], lines 212-219. *)
Definition update_graph (data : option (list Pd.record))
  : result Go.Figure :=
  create_timeline (events_df_of data).

End Shell.

(** The line-22 start-up: the module does not load when
    [load_default_events] raises. *)
Definition startup (os_path_exists : string -> bool)
    (read_excel : excel_source -> result Pd.DataFrame)
  : result Pd.DataFrame :=
  load_default_events os_path_exists read_excel.

(** *** The store between the two callbacks

    [file-store] is a [dcc.Store] (line 163): Dash serialises what
    [store_file] returned to JSON, keeps it in the browser and hands
    [update_graph] what it reads back.  On that trip a timestamp becomes
    the text of its [isoformat()] and a missing value becomes [null],
    that is [None]; texts and integers come back as they went. *)

Definition pad4 (n : nat) : string :=
  let zeros := if n <? 10 then "000" else if n <? 100 then "00"
               else if n <? 1000 then "0" else "" in
  (zeros ++ Py.str_of_nat n)%string.

(** [pd.Timestamp(y, m, d).isoformat()]. *)
Definition isoformat (y m d : nat) : string :=
  (pad4 y ++ "-" ++ Pd.pad2 m ++ "-" ++ Pd.pad2 d ++ "T00:00:00")%string.

Definition json_cell (v : cell) : cell :=
  match v with
  | Timestamp y m d => Str (isoformat y m d)
  | _ => v
  end.

Definition json_record (r : Pd.record) : Pd.record :=
  map (fun kv => (fst kv, json_cell (snd kv))) r.

(** What [update_graph] receives for what [store_file] returned. *)
Definition dcc_store (data : option (list Pd.record))
  : option (list Pd.record) :=
  option_map (map json_record) data.

(** * Definitions for the statements *)

(** The elements of [l] whose key is [k], in order. *)
Definition group (A K : Type) (key : A -> K) (eqb : K -> K -> bool)
    (l : list A) (k : K) : list A :=
  filter (fun a => eqb (key a) k) l.

(** Position of the first occurrence of [v] in [l]. *)
Fixpoint first_index (v : cell) (l : list cell) : nat :=
  match l with
  | [] => 0
  | a :: l' => if cell_eq_dec v a then 0 else S (first_index v l')
  end.

(** The category assignment in the specification's words: [u] lists the
    distinct values of [l], each once, ordered by first occurrence. *)
Definition first_seen_order (l u : list cell) : Prop :=
  NoDup u /\
  (forall v, In v u <-> In v l) /\
  StronglySorted (fun a b => first_index a l < first_index b l) u.

Definition count (mask : list bool) : nat :=
  length (filter (fun b => b) mask).

(** Label placement of the marker at partition-local index [j]. *)
Definition placement (j : nat) : string :=
  if Nat.even j then "bottom center" else "top center".

(** The rows of one column that belong to category [et]. *)
Definition part (types : Pd.Series) (et : cell) (s : Pd.Series) : Pd.Series :=
  Pd.mkSeries (Pd.dtype_of s) (Pd.select (Pd.eq_mask types et) (Pd.values s)).

(** The trace of the category [et] of ordinal [i]. *)
Definition trace_of (types dates descs : Pd.Series) (i : nat) (et : cell)
  : Go.Scatter :=
  let m := count (Pd.eq_mask types et) in
  Go.mkScatter (part types et dates) (repeat i m) "markers+text"
    (Pd.mkSeries Pd.object (map Pd.strftime_md (Pd.values (part types et dates))))
    (map placement (seq 0 m)) (part types et descs) "text+x"
    (Go.mkMarker 12 (rgba i) (Go.mkLine 2 "black")) et.

Definition layout_of (event_types : list cell) : Go.Layout :=
  Go.mkLayout "我的大事件线 (2023-2024)" "0.5" "日期"
    (Go.mkYAxis (seq 0 (length event_types)) event_types "事件类型")
    "white" "closest" true "plotly_white" 500 true
    (Some ("2023-01-01", "2024-12-31")).

Definition chart (types dates descs : Pd.Series) : Go.Figure :=
  Go.mkFigure
    (map (fun ie => trace_of types dates descs (fst ie) (snd ie))
         (Py.enumerate (Pd.unique types)))
    (Some (layout_of (Pd.unique types))).

(** What a frame must offer for the renderer to run through: the three
    columns, a datetime date column, and columns of one length. *)
Definition renderable (df : Pd.DataFrame) : bool :=
  Pd.rectangular df &&
  match Pd.getitem df col_date, Pd.getitem df col_type,
        Pd.getitem df col_desc with
  | inr dates, inr _, inr _ =>
      if Pd.dtype_eq_dec (Pd.dtype_of dates) Pd.datetime64 then true else false
  | _, _, _ => false
  end.

(** The Event-Table invariant on categories: none is missing. *)
Definition categories_present (df : Pd.DataFrame) : bool :=
  match Pd.getitem df col_type with
  | inr types => forallb (fun v => negb (Pd.is_nan v)) (Pd.values types)
  | inl _ => false
  end.

Definition is_text (v : cell) : bool :=
  match v with Str _ => true | _ => false end.

(** The categories of an Event Table: every cell of the category column
    is a text. *)
Definition text_categories (df : Pd.DataFrame) : bool :=
  match Pd.getitem df col_type with
  | inr types => forallb is_text (Pd.values types)
  | inl _ => false
  end.

(** A category column as a sheet of texts with gaps reads: an object
    column whose cells are texts or missing. *)
Definition object_categories (df : Pd.DataFrame) : bool :=
  match Pd.getitem df col_type with
  | inr types =>
      (if Pd.dtype_eq_dec (Pd.dtype_of types) Pd.object then true else false)
      && forallb (fun v => is_text v || Pd.is_nan v) (Pd.values types)
  | inl _ => false
  end.

(** Every distinct category passes plotly's check of a series name. *)
Definition names_valid (df : Pd.DataFrame) : bool :=
  match Pd.getitem df col_type with
  | inr types => forallb (Go.name_valid (Pd.dtype_of types)) (Pd.unique types)
  | inl _ => false
  end.

(** The built-in sample, as a frame. *)
Definition sample_df : Pd.DataFrame :=
  match sample_frame with
  | inr d => d
  | inl _ => []
  end.

(** The colour of ordinal [i] in the specification's words: one fixed
    multiplier per channel, modulo 255, and the fixed alpha. *)
Definition channels (i : nat) : nat * nat * nat :=
  ((i * 70) mod 255, (i * 120) mod 255, (i * 180) mod 255).

Definition rgba_string (c : nat * nat * nat) (alpha : string) : string :=
  let '(r, g, b) := c in
  ("rgba(" ++ Py.str_of_nat r ++ ", " ++ Py.str_of_nat g ++ ", "
           ++ Py.str_of_nat b ++ ", " ++ alpha ++ ")")%string.

(** The empty table as [pd.read_excel] returns it for a sheet holding the
    header row only: three object columns without values. *)
Definition empty_table : Pd.DataFrame :=
  [ (col_date, Pd.mkSeries Pd.object []);
    (col_type, Pd.mkSeries Pd.object []);
    (col_desc, Pd.mkSeries Pd.object []) ].

(** One row: (date, category, description). *)
Abbreviation row := (cell * cell * cell)%type.

Definition category (e : row) : cell := snd (fst e).

(** The rows of the table, in table order. *)
Definition rows (types dates descs : Pd.Series) : list row :=
  combine (combine (Pd.values dates) (Pd.values types)) (Pd.values descs).

(** The markers of a series, each with the row it shows: its [x], the
    series name, its hover text. *)
Definition markers (tr : Go.Scatter) : list row :=
  combine (combine (Pd.values (Go.x tr))
                   (repeat (Go.name tr) (length (Go.y tr))))
          (Pd.values (Go.hovertext tr)).

(** A reading of the workbook with the outcome [r], whatever is read. *)
Definition reads_as (r : result Pd.DataFrame)
  : excel_source -> result Pd.DataFrame := fun _ => r.

(** A base64 decoding to the bytes [b]. *)
Definition decodes_to (b : list Byte.byte)
  : string -> result (list Byte.byte) := fun _ => inr b.

(** A sheet that parses but lacks the category column. *)
Definition sheet_without_category : Pd.DataFrame :=
  [ (col_date, Pd.mkSeries Pd.datetime64 [Timestamp 2024 2 10]);
    (col_desc, Pd.mkSeries Pd.object [Str "春节"]) ].

Fixpoint distinct (l : list string) : bool :=
  match l with
  | [] => true
  | c :: l' => negb (existsb (String.eqb c) l') && distinct l'
  end.

(** A frame whose records name its columns: at least one row, columns
    of one length and of distinct names. *)
Definition tabular (df : Pd.DataFrame) : bool :=
  Pd.rectangular df && (1 <=? Pd.len df) && distinct (map fst df).

(** A table uploaded earlier. *)
Definition uploaded_before : Pd.DataFrame :=
  [ (col_date, Pd.mkSeries Pd.datetime64 [Timestamp 2024 2 10]);
    (col_type, Pd.mkSeries Pd.object [Str "节假日"]);
    (col_desc, Pd.mkSeries Pd.object [Str "春节"]) ].

(** The specification's Event and Event Table, as the frame the script
    works on: a datetime column and two text columns, under the labels
    of the script. *)
Record Event : Type := mkEvent {
  date : nat * nat * nat;
  category_of : string;
  description : string
}.

Definition date_cell (e : Event) : cell :=
  let '(y, m, d) := date e in Timestamp y m d.

Definition event_table (evs : list Event) : Pd.DataFrame :=
  [ (col_date, Pd.mkSeries Pd.datetime64 (map date_cell evs));
    (col_type, Pd.mkSeries Pd.object (map (fun e => Str (category_of e)) evs));
    (col_desc, Pd.mkSeries Pd.object (map (fun e => Str (description e)) evs)) ].

(** A table with a repeated category: two rows of category A around
    one of category B. *)
Definition table_aba : Pd.DataFrame :=
  [ (col_date, Pd.mkSeries Pd.datetime64
                 [Timestamp 2023 1 1; Timestamp 2023 5 1; Timestamp 2023 12 25]);
    (col_type, Pd.mkSeries Pd.object [Str "A"; Str "B"; Str "A"]);
    (col_desc, Pd.mkSeries Pd.object [Str "d1"; Str "d2"; Str "d3"]) ].

(** The same table with the category of its second row left empty. *)
Definition table_gap : Pd.DataFrame :=
  [ (col_date, Pd.mkSeries Pd.datetime64
                 [Timestamp 2023 1 1; Timestamp 2023 5 1; Timestamp 2023 12 25]);
    (col_type, Pd.mkSeries Pd.object [Str "A"; NaN; Str "A"]);
    (col_desc, Pd.mkSeries Pd.object [Str "d1"; Str "d2"; Str "d3"]) ].

(** Occurrences of the character [c] in [s]. *)
Fixpoint count_char (c : ascii) (s : string) : nat :=
  match s with
  | EmptyString => 0
  | String a s' => (if Ascii.eqb a c then 1 else 0) + count_char c s'
  end.

(** The loop of lines 237-249 over any script [text]. *)
Definition all_words (text : list string) : list Html.Div :=
  fold_left
    (fun all_words i_sentence =>
       let i := fst i_sentence in
       let sentence := snd i_sentence in
       let sentence_words :=
         map (fun j_word =>
                Html.mkSpan (snd j_word) "motivational-word"
                  [("--index", i * Py.py_len sentence + fst j_word)])
             (Py.enumerate (Py.py_chars sentence)) in
       all_words ++
         [Html.mkDiv sentence_words "motivational-line"
            [("animationDelay", (Py.str_of_nat (i * 2) ++ "s")%string)]])
    (Py.enumerate text) [].

(** [table_aba] with a fourth column in front. *)
Definition table_aba_notes : Pd.DataFrame :=
  ("备注", Pd.mkSeries Pd.object [NaN; Str "n2"; NaN]) :: table_aba.

(** No two ordinals below [n] share a colour string. *)
Definition colours_distinct_below (n : nat) : bool :=
  forallb (fun a =>
             forallb (fun b => implb (String.eqb (rgba a) (rgba b)) (a =? b))
                     (seq 0 n))
          (seq 0 n).


(** The rows that have a category. *)
Definition with_category (l : list row) : list row :=
  filter (fun r => negb (Pd.is_nan (category r))) l.

(** A frame with nothing but a category column. *)
Definition sheet_of_categories : Pd.DataFrame :=
  [ (col_type, Pd.mkSeries Pd.object [Str "A"; Str "B"; Str "A"]) ].

(** The chart of [table_aba]. *)
Definition figure_aba : Go.Figure :=
  chart (Pd.mkSeries Pd.object [Str "A"; Str "B"; Str "A"])
        (Pd.mkSeries Pd.datetime64
           [Timestamp 2023 1 1; Timestamp 2023 5 1; Timestamp 2023 12 25])
        (Pd.mkSeries Pd.object [Str "d1"; Str "d2"; Str "d3"]).

(** [table_aba] with numbers for categories: an integer column. *)
Definition table_int_categories : Pd.DataFrame :=
  [ (col_date, Pd.mkSeries Pd.datetime64
                 [Timestamp 2023 1 1; Timestamp 2023 5 1; Timestamp 2023 12 25]);
    (col_type, Pd.mkSeries Pd.int64 [Int 2; Int 1; Int 2]);
    (col_desc, Pd.mkSeries Pd.object [Str "d1"; Str "d2"; Str "d3"]) ].

(** * Properties *)

(** ** Lists *)

Section ListFacts.
Variables A B : Type.

Lemma select_filter (p : A -> bool) (l : list A) :
  Pd.select (map p l) l = filter p l.
Proof.
  induction l as [|a l IH]; simpl; auto.
  destruct (p a); now rewrite IH.
Qed.

Lemma select_combine (mask : list bool) (l : list A) (l' : list B) :
  Pd.select mask (combine l l')
  = combine (Pd.select mask l) (Pd.select mask l').
Proof.
  revert l l'; induction mask as [|b mask IH]; intros [|a l] [|a' l'];
    simpl; auto.
  all: destruct b; simpl; auto.
  - now destruct (Pd.select mask l).
  - now rewrite IH.
Qed.

Lemma select_length (mask : list bool) (l : list A) :
  length mask = length l ->
  length (Pd.select mask l) = length (filter (fun b => b) mask).
Proof.
  revert l; induction mask as [|b mask IH]; intros [|a l] H; simpl in *;
    try discriminate; auto.
  destruct b; simpl; rewrite IH; auto.
Qed.

Lemma length_flat_map_sum (f : A -> list B) (l : list A) :
  length (flat_map f l) = list_sum (map (fun a => length (f a)) l).
Proof.
  induction l as [|a l IH]; simpl; auto.
  now rewrite length_app, IH.
Qed.

Lemma flat_map_agree (f g : A -> list B) (l : list A) :
  (forall a, In a l -> f a = g a) -> flat_map f l = flat_map g l.
Proof.
  induction l as [|a l IH]; intros H; simpl; auto.
  rewrite (H a), IH; simpl; auto.
  intros; apply H; simpl; auto.
Qed.

Lemma StronglySorted_weaken (R R' : A -> A -> Prop) (l : list A) :
  (forall a b, In a l -> In b l -> R a b -> R' a b) ->
  StronglySorted R l -> StronglySorted R' l.
Proof.
  intros HR Hs; induction Hs as [|a l Hs IH Hall]; constructor.
  - apply IH. intros; apply HR; simpl; auto.
  - rewrite Forall_forall in *. intros b Hb.
    apply HR; simpl; auto.
Qed.
End ListFacts.

(** Splitting a list by key: the groups of the keys of a duplicate-free
    list that covers every key hold each element once. *)
Section Groups.
Variables A K : Type.
Variable key : A -> K.
Variable eqb : K -> K -> bool.

Lemma groups_cons (a : A) (l : list A) (ks : list K) :
  NoDup ks -> In (key a) ks ->
  (forall k, In k ks -> eqb (key a) k = true <-> key a = k) ->
  Permutation (flat_map (group key eqb (a :: l)) ks) (a :: flat_map (group key eqb l) ks).
Proof.
  induction ks as [|k ks IH]; intros Hnd Hin Heq; [destruct Hin|].
  inversion Hnd as [|? ? Hk Hnd']; subst.
  simpl flat_map. unfold group at 1. simpl filter.
  destruct (eqb (key a) k) eqn:E.
  - apply Heq in E; [|now left]. subst k.
    simpl. apply perm_skip. apply Permutation_app_head.
    rewrite (flat_map_agree (group key eqb (a :: l)) (group key eqb l)); auto.
    intros k Hk'. unfold group; simpl.
    destruct (eqb (key a) k) eqn:E'; auto.
    apply Heq in E'; [|now right]. congruence.
  - fold (group key eqb l k).
    destruct Hin as [Hin|Hin].
    + assert (eqb (key a) k = true) by (apply Heq; [now left|auto]).
      congruence.
    + rewrite IH; auto.
      * apply Permutation_sym, Permutation_middle.
      * intros k' Hk'. apply Heq. now right.
Qed.

Lemma groups_partition (l : list A) (ks : list K) :
  NoDup ks ->
  (forall a, In a l -> In (key a) ks) ->
  (forall a k, In a l -> In k ks -> eqb (key a) k = true <-> key a = k) ->
  Permutation (flat_map (group key eqb l) ks) l.
Proof.
  intros Hnd; induction l as [|a l IH]; intros Hcov Heq.
  - clear. induction ks; simpl; auto.
  - rewrite groups_cons; auto.
    + apply perm_skip, IH.
      * intros; apply Hcov; now right.
      * intros; apply Heq; auto. now right.
    + apply Hcov; now left.
    + intros; apply Heq; auto. now left.
Qed.
End Groups.

(** ** [unique]: distinct values in first-seen order *)

Lemma unique_from_In (seen l : list cell) (v : cell) :
  In v (Pd.unique_from seen l) <-> In v l /\ ~ In v seen.
Proof.
  revert seen; induction l as [|a l IH]; intros seen; simpl.
  - tauto.
  - destruct (in_dec cell_eq_dec a seen) as [Hs|Hs]; simpl; rewrite IH; simpl.
    + split; [tauto|]. intros [[->|H] Hn]; tauto.
    + destruct (cell_eq_dec a v) as [->|Hne]; tauto.
Qed.

Lemma unique_from_NoDup (seen l : list cell) :
  NoDup (Pd.unique_from seen l).
Proof.
  revert seen; induction l as [|a l IH]; intros seen; simpl.
  - constructor.
  - destruct (in_dec cell_eq_dec a seen); auto.
    constructor; auto.
    rewrite unique_from_In; simpl; tauto.
Qed.

Lemma unique_from_sorted (seen l : list cell) :
  StronglySorted (fun a b => first_index a l < first_index b l)
                 (Pd.unique_from seen l).
Proof.
  revert seen; induction l as [|a l IH]; intros seen; simpl.
  - constructor.
  - destruct (in_dec cell_eq_dec a seen) as [Hs|Hs].
    + apply StronglySorted_weaken with (2 := IH seen).
      intros b c Hb Hc Hlt.
      apply unique_from_In in Hb, Hc.
      destruct (cell_eq_dec b a) as [->|_]; [tauto|].
      destruct (cell_eq_dec c a) as [->|_]; [tauto|]. lia.
    + constructor.
      * apply StronglySorted_weaken with (2 := IH (a :: seen)).
        intros b c Hb Hc Hlt.
        apply unique_from_In in Hb, Hc; simpl in Hb, Hc.
        destruct (cell_eq_dec b a) as [->|_]; [tauto|].
        destruct (cell_eq_dec c a) as [->|_]; [tauto|]. lia.
      * apply Forall_forall; intros b Hb.
        apply unique_from_In in Hb; simpl in Hb.
        destruct (cell_eq_dec a a) as [_|]; [|congruence].
        destruct (cell_eq_dec b a) as [->|_]; [tauto|]. lia.
Qed.

Lemma unique_first_seen (s : Pd.Series) :
  first_seen_order (Pd.values s) (Pd.unique s).
Proof.
  unfold Pd.unique; repeat split.
  - apply unique_from_NoDup.
  - intros H; apply unique_from_In in H; tauto.
  - intros H; apply unique_from_In; simpl; tauto.
  - apply unique_from_sorted.
Qed.

(** ** Dictionaries built by a comprehension over distinct keys *)

Section DictFacts.
Variable V : Type.

Lemma setitem_fresh (k : cell) (v : V) (d : Dict.dict V) :
  ~ In k (map fst d) -> Dict.setitem k v d = d ++ [(k, v)].
Proof.
  induction d as [|[k' v'] d IH]; simpl; intros H; auto.
  destruct (cell_eq_dec k k') as [->|_]; [tauto|].
  rewrite IH; tauto.
Qed.

Lemma fold_setitem_fresh (items d : Dict.dict V) :
  NoDup (map fst (d ++ items)) ->
  fold_left (fun d kv => Dict.setitem (fst kv) (snd kv) d) items d
  = d ++ items.
Proof.
  revert d; induction items as [|[k v] items IH]; intros d H; simpl.
  - now rewrite app_nil_r.
  - rewrite setitem_fresh.
    + rewrite IH; rewrite <- app_assoc; auto.
    + rewrite map_app in H. apply NoDup_remove_2 in H.
      intros Hin; apply H, in_or_app; auto.
Qed.

Lemma of_items_distinct (items : Dict.dict V) :
  NoDup (map fst items) -> Dict.of_items items = items.
Proof. intros H. unfold Dict.of_items. now rewrite fold_setitem_fresh. Qed.

Lemma getitem_nth (d : Dict.dict V) (i : nat) (k : cell) (v : V) :
  NoDup (map fst d) -> nth_error d i = Some (k, v) ->
  Dict.getitem d k = inr v.
Proof.
  revert i; induction d as [|[k' v'] d IH]; intros [|i] Hnd H; simpl in *;
    try discriminate.
  - injection H as -> ->. destruct (cell_eq_dec k k); [reflexivity|congruence].
  - inversion Hnd as [|? ? Hk Hnd']; subst.
    destruct (cell_eq_dec k k') as [->|_]; [|eauto].
    exfalso; apply Hk. apply nth_error_In in H.
    now apply (in_map fst) in H.
Qed.
End DictFacts.

Section EnumerateFacts.
Variable A : Type.

Lemma enumerate_snd (l : list A) : map snd (Py.enumerate l) = l.
Proof.
  unfold Py.enumerate. generalize 0.
  induction l as [|a l IH]; intros n; simpl; auto. now rewrite IH.
Qed.

Lemma enumerate_fst (l : list A) :
  map fst (Py.enumerate l) = seq 0 (length l).
Proof.
  unfold Py.enumerate. generalize 0.
  induction l as [|a l IH]; intros n; simpl; auto. now rewrite IH.
Qed.

Lemma enumerate_nth (l : list A) (i : nat) (a : A) :
  nth_error l i = Some a -> nth_error (Py.enumerate l) i = Some (i, a).
Proof.
  unfold Py.enumerate.
  assert (G : forall n, nth_error l i = Some a ->
            nth_error (combine (seq n (length l)) l) i = Some (n + i, a)).
  { revert i; induction l as [|b l IH]; intros [|i] n H; simpl in *;
      try discriminate.
    - injection H as ->. now rewrite Nat.add_0_r.
    - rewrite (IH i (S n) H). f_equal; f_equal; lia. }
  apply (G 0).
Qed.

Lemma enumerate_length (l : list A) : length (Py.enumerate l) = length l.
Proof.
  unfold Py.enumerate. rewrite length_combine, length_seq. lia.
Qed.
End EnumerateFacts.

(** ** Frames: columns of a filtered frame *)

Lemma getitem_loc (df : Pd.DataFrame) (mask : list bool) (c : string) :
  Pd.getitem (Pd.loc df mask) c
  = match Pd.getitem df c with
    | inr s => inr (Pd.mkSeries (Pd.dtype_of s)
                      (Pd.select mask (Pd.values s)))
    | inl e => inl e
    end.
Proof.
  induction df as [|[c' s'] df IH]; simpl; auto.
  destruct (string_dec c c'); auto.
Qed.

Lemma rectangular_column (df : Pd.DataFrame) (c : string) (s : Pd.Series) :
  Pd.rectangular df = true -> Pd.getitem df c = inr s ->
  length (Pd.values s) = Pd.len df.
Proof.
  unfold Pd.rectangular. generalize (Pd.len df) as n.
  induction df as [|[c' s'] df IH]; simpl; intros n Hr Hg; [discriminate|].
  apply andb_prop in Hr as [H1 H2].
  destruct (string_dec c c').
  - injection Hg as <-. now apply Nat.eqb_eq.
  - eauto.
Qed.

Lemma len_loc (df : Pd.DataFrame) (mask : list bool) :
  length mask = Pd.len df -> Pd.len (Pd.loc df mask) = count mask.
Proof.
  destruct df as [|[c s] df]; simpl; intros H.
  - destruct mask; [reflexivity|discriminate].
  - now apply select_length.
Qed.

Lemma eq_mask_length (s : Pd.Series) (v : cell) :
  length (Pd.eq_mask s v) = length (Pd.values s).
Proof. unfold Pd.eq_mask. apply length_map. Qed.

(** ** The chart in closed form *)

Lemma mod2_even (i : nat) : (i mod 2 =? 0) = Nat.even i.
Proof.
  pose proof (Nat.div_mod_eq i 2) as D.
  pose proof (Nat.mod_upper_bound i 2) as U.
  destruct (Nat.even i) eqn:E.
  - apply Nat.even_spec in E as [m Hm]. apply Nat.eqb_eq. lia.
  - assert (O : Nat.odd i = true) by (unfold Nat.odd; now rewrite E).
    apply Nat.odd_spec in O as [m Hm]. apply Nat.eqb_neq. lia.
Qed.

Lemma text_positions_placement (n : nat) :
  text_positions n = map placement (seq 0 n).
Proof.
  unfold text_positions.
  assert (G : forall l acc,
             fold_left
               (fun text_position i =>
                  if i mod 2 =? 0 then text_position ++ ["bottom center"]
                  else text_position ++ ["top center"]) l acc
             = acc ++ map placement l).
  { induction l as [|i l IH]; intros acc; cbn [fold_left map].
    - now rewrite app_nil_r.
    - rewrite mod2_even.
      assert (P : placement i
                  = if Nat.even i then "bottom center" else "top center")
        by reflexivity.
      destruct (Nat.even i); rewrite IH, <- app_assoc, P; reflexivity. }
  apply G.
Qed.

Lemma renderable_columns (df : Pd.DataFrame) :
  renderable df = true ->
  exists types dates descs,
    Pd.getitem df col_type = inr types /\
    Pd.getitem df col_date = inr dates /\
    Pd.getitem df col_desc = inr descs /\
    Pd.dtype_of dates = Pd.datetime64 /\
    Pd.rectangular df = true.
Proof.
  unfold renderable. intros H. apply andb_prop in H as [Hr H].
  destruct (Pd.getitem df col_date) as [|dates]; [discriminate|].
  destruct (Pd.getitem df col_type) as [|types]; [discriminate|].
  destruct (Pd.getitem df col_desc) as [|descs]; [discriminate|].
  destruct (Pd.dtype_eq_dec _ _); [|discriminate].
  exists types, dates, descs; auto.
Qed.

Lemma generate_event_types_closed (df : Pd.DataFrame) (types : Pd.Series) :
  Pd.getitem df col_type = inr types ->
  generate_event_types df
  = inr (Pd.unique types,
         map (fun ie => (snd ie, rgba (fst ie))) (Py.enumerate (Pd.unique types)),
         map (fun ie => (snd ie, fst ie)) (Py.enumerate (Pd.unique types))).
Proof.
  intros H. unfold generate_event_types. rewrite H. simpl.
  rewrite !of_items_distinct; auto;
    rewrite map_map; simpl; rewrite enumerate_snd;
    apply unique_from_NoDup.
Qed.

Section Renderer.
Variable df : Pd.DataFrame.
Variables types dates descs : Pd.Series.
Hypothesis Hrect : Pd.rectangular df = true.
Hypothesis Htypes : Pd.getitem df col_type = inr types.
Hypothesis Hdates : Pd.getitem df col_date = inr dates.
Hypothesis Hdescs : Pd.getitem df col_desc = inr descs.
Hypothesis Hdt : Pd.dtype_of dates = Pd.datetime64.

Lemma make_trace_outcome (cm : Dict.dict string) (ym : Dict.dict nat)
    (i : nat) (et : cell) :
  Dict.getitem cm et = inr (rgba i) ->
  Dict.getitem ym et = inr i ->
  make_trace df cm ym et
  = Go.Scatter_new (Pd.dtype_of types) (trace_of types dates descs i et).
Proof.
  intros Hc Hy. unfold make_trace.
  rewrite Htypes; cbn [bind].
  rewrite !getitem_loc, Hdates, Hdescs, Hy, Hc; cbn [bind].
  unfold Pd.dt_strftime_md; cbn [Pd.dtype_of Pd.values]. rewrite Hdt.
  cbn [bind ret].
  rewrite len_loc, text_positions_placement.
  - unfold trace_of, part. cbn [Pd.values]. now rewrite Hdt.
  - rewrite eq_mask_length. now apply rectangular_column with (c := col_type).
Qed.

Lemma add_traces_outcome (cm : Dict.dict string) (ym : Dict.dict nat)
    (ets : list cell) (n : nat) (fig : Go.Figure) :
  (forall i et, nth_error ets i = Some et ->
                Dict.getitem cm et = inr (rgba (n + i)) /\
                Dict.getitem ym et = inr (n + i)) ->
  add_traces df cm ym ets fig
  = if forallb (Go.name_valid (Pd.dtype_of types)) ets
    then inr (Go.mkFigure
                (Go.data fig ++
                   map (fun ie => trace_of types dates descs (fst ie) (snd ie))
                       (combine (seq n (length ets)) ets))
                (Go.layout fig))
    else inl Go.name_error.
Proof.
  revert n fig; induction ets as [|et rest IH]; intros n fig H.
  - cbn. rewrite app_nil_r. now destruct fig.
  - cbn [add_traces forallb].
    destruct (H 0 et eq_refl) as [Hc Hy]. rewrite Nat.add_0_r in Hc, Hy.
    rewrite (@make_trace_outcome cm ym n et Hc Hy).
    unfold Go.Scatter_new. cbn [Go.name trace_of].
    destruct (Go.name_valid (Pd.dtype_of types) et); [|reflexivity].
    cbn [bind ret andb].
    rewrite (IH (S n) (Go.add_trace fig (trace_of types dates descs n et))).
    + cbn [Go.add_trace Go.data Go.layout length seq combine map fst snd].
      now rewrite <- app_assoc.
    + intros i et' Hi. specialize (H (S i) et' Hi).
      now rewrite Nat.add_succ_r in H.
Qed.

(** On a renderable frame [create_timeline] returns the chart, unless a
    category is refused as the name of its series. *)
Lemma create_timeline_outcome :
  create_timeline df
  = if forallb (Go.name_valid (Pd.dtype_of types)) (Pd.unique types)
    then inr (chart types dates descs)
    else inl Go.name_error.
Proof.
  unfold create_timeline.
  rewrite (@generate_event_types_closed df types Htypes); cbn [bind].
  rewrite add_traces_outcome with (n := 0).
  - destruct (forallb _ _); [|reflexivity].
    cbn [bind ret]. unfold chart, layout_of, Go.update_xaxes, Py.enumerate.
    cbn [Go.data Go.layout Go.Figure_new app].
    unfold Dict.values, Dict.keys.
    rewrite !map_map; cbn [fst snd].
    change (combine (seq 0 (length (Pd.unique types))) (Pd.unique types))
      with (Py.enumerate (Pd.unique types)).
    rewrite enumerate_fst, enumerate_snd. reflexivity.
  - intros i et Hi. cbn [Nat.add].
    split; eapply getitem_nth;
      try (rewrite map_map; cbn [fst snd]; rewrite enumerate_snd;
           apply unique_from_NoDup);
      rewrite nth_error_map, (@enumerate_nth _ _ i et Hi); reflexivity.
Qed.
End Renderer.

Lemma render_outcome (df : Pd.DataFrame) :
  renderable df = true ->
  exists types dates descs,
    Pd.getitem df col_type = inr types /\
    Pd.getitem df col_date = inr dates /\
    Pd.getitem df col_desc = inr descs /\
    length (Pd.values types) = Pd.len df /\
    length (Pd.values dates) = Pd.len df /\
    length (Pd.values descs) = Pd.len df /\
    create_timeline df
    = if forallb (Go.name_valid (Pd.dtype_of types)) (Pd.unique types)
      then inr (chart types dates descs)
      else inl Go.name_error.
Proof.
  intros H.
  destruct (renderable_columns df H)
    as (types & dates & descs & Ht & Hd & Hh & Hdt & Hr).
  exists types, dates, descs.
  repeat split; auto; try (eapply rectangular_column; eassumption).
  now apply create_timeline_outcome.
Qed.

Lemma text_categories_spec (df : Pd.DataFrame) :
  text_categories df = true ->
  exists types,
    Pd.getitem df col_type = inr types /\
    forall v, In v (Pd.values types) -> exists s, v = Str s.
Proof.
  unfold text_categories.
  destruct (Pd.getitem df col_type) as [|types]; [discriminate|].
  intros H. rewrite forallb_forall in H. exists types. split; [reflexivity|].
  intros v Hv. apply H in Hv. destruct v; try discriminate. eauto.
Qed.

Lemma text_categories_valid (df : Pd.DataFrame) :
  text_categories df = true -> names_valid df = true.
Proof.
  intros H. destruct (text_categories_spec df H) as (types & Ht & Hs).
  unfold names_valid. rewrite Ht. apply forallb_forall. intros v Hv.
  apply unique_from_In in Hv as [Hv _].
  destruct (Hs v Hv) as [s ->]. reflexivity.
Qed.

Lemma text_categories_present (df : Pd.DataFrame) :
  text_categories df = true -> categories_present df = true.
Proof.
  intros H. destruct (text_categories_spec df H) as (types & Ht & Hs).
  unfold categories_present. rewrite Ht. apply forallb_forall. intros v Hv.
  destruct (Hs v Hv) as [s ->]. reflexivity.
Qed.

Lemma object_categories_valid (df : Pd.DataFrame) :
  object_categories df = true -> names_valid df = true.
Proof.
  unfold object_categories, names_valid.
  destruct (Pd.getitem df col_type) as [|types]; [discriminate|].
  intros H. apply andb_prop in H as [Hd H].
  destruct (Pd.dtype_eq_dec (Pd.dtype_of types) Pd.object) as [E|];
    [|discriminate].
  rewrite forallb_forall in H. apply forallb_forall. intros v Hv.
  apply unique_from_In in Hv as [Hv _]. apply H in Hv. rewrite E.
  destruct v; try discriminate; reflexivity.
Qed.

(** On a renderable frame whose categories pass as names,
    [create_timeline] returns the chart. *)
Lemma render_chart (df : Pd.DataFrame) :
  renderable df = true ->
  names_valid df = true ->
  exists types dates descs,
    Pd.getitem df col_type = inr types /\
    Pd.getitem df col_date = inr dates /\
    Pd.getitem df col_desc = inr descs /\
    length (Pd.values types) = Pd.len df /\
    length (Pd.values dates) = Pd.len df /\
    length (Pd.values descs) = Pd.len df /\
    create_timeline df = inr (chart types dates descs).
Proof.
  intros H Hv.
  destruct (render_outcome df H)
    as (types & dates & descs & Ht & Hd & Hh & Lt & Ld & Lh & Hc).
  exists types, dates, descs.
  unfold names_valid in Hv. rewrite Ht in Hv. rewrite Hv in Hc.
  repeat split; auto.
Qed.

Lemma chart_names (types dates descs : Pd.Series) :
  map Go.name (Go.data (chart types dates descs)) = Pd.unique types.
Proof.
  unfold chart; cbn [Go.data]. rewrite map_map. cbn [Go.name trace_of].
  apply enumerate_snd.
Qed.

Lemma chart_nth (types dates descs : Pd.Series) (i : nat) (tr : Go.Scatter) :
  nth_error (Go.data (chart types dates descs)) i = Some tr ->
  exists et, nth_error (Pd.unique types) i = Some et /\
             tr = trace_of types dates descs i et.
Proof.
  unfold chart; cbn [Go.data]. rewrite nth_error_map.
  destruct (nth_error (Pd.unique types) i) as [et|] eqn:E.
  - rewrite (@enumerate_nth _ _ i et E). cbn. intros [= <-]. eauto.
  - apply nth_error_None in E.
    rewrite (proj2 (nth_error_None _ _)); [discriminate|].
    now rewrite enumerate_length.
Qed.

Lemma chart_In (types dates descs : Pd.Series) (tr : Go.Scatter) :
  In tr (Go.data (chart types dates descs)) ->
  exists i et, nth_error (Pd.unique types) i = Some et /\
               tr = trace_of types dates descs i et.
Proof.
  intros H. apply In_nth_error in H as [i Hi].
  apply chart_nth in Hi as (et & ? & ?). eauto.
Qed.

Lemma part_length (types s : Pd.Series) (et : cell) :
  length (Pd.values types) = length (Pd.values s) ->
  length (Pd.values (part types et s)) = count (Pd.eq_mask types et).
Proof.
  intros H. unfold part; cbn [Pd.values].
  apply select_length. now rewrite eq_mask_length.
Qed.

Lemma cell_eqb_true (a b : cell) : Pd.cell_eqb a b = true -> a = b.
Proof.
  unfold Pd.cell_eqb.
  destruct a, b; try discriminate;
    match goal with |- context [cell_eq_dec ?u ?v] =>
      destruct (cell_eq_dec u v) end; auto; discriminate.
Qed.

Lemma cell_eqb_refl (a : cell) : a <> NaN -> Pd.cell_eqb a a = true.
Proof.
  unfold Pd.cell_eqb. intros H.
  destruct a; try congruence;
    match goal with |- context [cell_eq_dec ?u ?v] =>
      destruct (cell_eq_dec u v) end; auto; congruence.
Qed.

Lemma count_present (types : Pd.Series) (et : cell) :
  In et (Pd.values types) -> et <> NaN -> 0 < count (Pd.eq_mask types et).
Proof.
  unfold count, Pd.eq_mask. intros Hin Hne.
  induction (Pd.values types) as [|a l IH]; [destruct Hin|].
  cbn [map filter]. destruct Hin as [->|Hin].
  - rewrite cell_eqb_refl by auto. cbn; lia.
  - destruct (Pd.cell_eqb a et); cbn; auto with arith.
Qed.

(** Every Event Table of the specification is a frame the renderer
    accepts, with every category present, and a text. *)
Lemma event_table_admissible (evs : list Event) :
  renderable (event_table evs) = true /\
  categories_present (event_table evs) = true /\
  text_categories (event_table evs) = true.
Proof.
  unfold renderable, categories_present, text_categories, Pd.rectangular,
    event_table.
  cbn -[Nat.eqb]. rewrite !length_map, Nat.eqb_refl.
  split; [reflexivity|].
  split; induction evs as [|e evs IH]; cbn; auto.
Qed.

(** C1. For every Event Table (a frame the renderer accepts whose
    categories are texts), the chart has one marker series per distinct
    category, the series named by the categories in order of first
    appearance; the series at position [i] sits on lane [i] (it has a
    marker, and every one of its markers has [y = i]), and the lanes on
    the axis are [0 .. N-1] labelled by the categories in that order. *)
Theorem render_series_lanes (df : Pd.DataFrame) :
  renderable df = true ->
  text_categories df = true ->
  exists fig types lay,
    Pd.getitem df col_type = inr types /\
    create_timeline df = inr fig /\
    first_seen_order (Pd.values types) (map Go.name (Go.data fig)) /\
    map Go.name (Go.data fig) = Pd.unique types /\
    (forall i tr, nth_error (Go.data fig) i = Some tr ->
       Go.y tr = repeat i (length (Pd.values (Go.x tr))) /\
       Pd.values (Go.x tr) <> []) /\
    Go.layout fig = Some lay /\
    Go.tickvals (Go.yaxis lay) = seq 0 (length (Go.data fig)) /\
    Go.ticktext (Go.yaxis lay) = map Go.name (Go.data fig).
Proof.
  intros H Htx.
  destruct (render_chart df H (text_categories_valid df Htx))
    as (types & dates & descs & Ht & Hd & Hh & Lt & Ld & Lh & Hc).
  destruct (text_categories_spec df Htx) as (types' & Ht' & Hs).
  assert (types' = types) by congruence. subst types'.
  exists (chart types dates descs), types, (layout_of (Pd.unique types)).
  rewrite chart_names.
  split; [assumption|]. split; [assumption|].
  split; [apply unique_first_seen|]. split; [reflexivity|].
  split; [|split; [reflexivity|split; [|reflexivity]]].
  - intros i tr Htr. apply chart_nth in Htr as (et & He & ->).
    cbn [Go.x Go.y Go.name trace_of].
    split; [rewrite part_length; auto; congruence|].
    intros Hnil.
    assert (Hin : In et (Pd.values types)).
    { apply nth_error_In in He. apply unique_from_In in He. tauto. }
    assert (Hne : et <> NaN) by (destruct (Hs et Hin) as [s ->]; discriminate).
    pose proof (count_present types Hin Hne) as Hpos.
    rewrite <- (part_length types dates et) in Hpos by congruence.
    rewrite Hnil in Hpos. inversion Hpos.
  - cbn [layout_of Go.yaxis Go.tickvals].
    now rewrite <- (chart_names types dates descs), length_map.
Qed.

Lemma render_series_lanes_witness :
  exists fig types lay,
    Pd.getitem table_aba col_type = inr types /\
    create_timeline table_aba = inr fig /\
    first_seen_order (Pd.values types) (map Go.name (Go.data fig)) /\
    map Go.name (Go.data fig) = Pd.unique types /\
    (forall i tr, nth_error (Go.data fig) i = Some tr ->
       Go.y tr = repeat i (length (Pd.values (Go.x tr))) /\
       Pd.values (Go.x tr) <> []) /\
    Go.layout fig = Some lay /\
    Go.tickvals (Go.yaxis lay) = seq 0 (length (Go.data fig)) /\
    Go.ticktext (Go.yaxis lay) = map Go.name (Go.data fig).
Proof.
  apply (render_series_lanes table_aba); vm_compute; reflexivity.
Defined.



Lemma rgba_channels (i : nat) : rgba i = rgba_string (channels i) "0.7".
Proof. reflexivity. Qed.

(** C3. For every Event Table, [generate_event_types] returns the
    distinct categories of the table in first-seen order, and the colour
    it maps the category of ordinal [i] to, which is the marker colour of
    the series at position [i], is the string built from the channels
    [(i*70) mod 255], [(i*120) mod 255], [(i*180) mod 255] and the alpha
    [0.7]: it depends on [i] alone. *)
Theorem colour_by_ordinal (df : Pd.DataFrame) :
  renderable df = true ->
  text_categories df = true ->
  exists fig types color_map y_position_map,
    Pd.getitem df col_type = inr types /\
    generate_event_types df
    = inr (Pd.unique types, color_map, y_position_map) /\
    create_timeline df = inr fig /\
    map Go.name (Go.data fig) = Pd.unique types /\
    (forall c, In c (Pd.values types) ->
       exists i, nth_error (Pd.unique types) i = Some c) /\
    forall i et, nth_error (Pd.unique types) i = Some et ->
      Dict.getitem color_map et = inr (rgba_string (channels i) "0.7") /\
      Dict.getitem y_position_map et = inr i /\
      exists tr, nth_error (Go.data fig) i = Some tr /\
        Go.name tr = et /\
        Go.color (Go.marker tr) = rgba_string (channels i) "0.7".
Proof.
  intros H Htx.
  destruct (render_chart df H (text_categories_valid df Htx))
    as (types & dates & descs & Ht & Hd & Hh & Lt & Ld & Lh & Hc).
  rewrite (@generate_event_types_closed df types Ht).
  eexists (chart types dates descs), types, _, _.
  split; [assumption|]. split; [reflexivity|]. split; [assumption|].
  split; [apply chart_names|]. split.
  - intros c Hin. apply In_nth_error.
    apply unique_from_In. split; [auto|intros []].
  - intros i et Hi. rewrite <- rgba_channels.
    split; [|split].
    + eapply getitem_nth.
      * rewrite map_map; cbn [fst snd]; rewrite enumerate_snd.
        apply unique_from_NoDup.
      * rewrite nth_error_map, (@enumerate_nth _ _ i et Hi). reflexivity.
    + eapply getitem_nth.
      * rewrite map_map; cbn [fst snd]; rewrite enumerate_snd.
        apply unique_from_NoDup.
      * rewrite nth_error_map, (@enumerate_nth _ _ i et Hi). reflexivity.
    + exists (trace_of types dates descs i et).
      unfold chart; cbn [Go.data].
      rewrite nth_error_map, (@enumerate_nth _ _ i et Hi). auto.
Qed.

Lemma colour_by_ordinal_witness :
  exists fig types color_map y_position_map,
    Pd.getitem table_aba col_type = inr types /\
    generate_event_types table_aba
    = inr (Pd.unique types, color_map, y_position_map) /\
    create_timeline table_aba = inr fig /\
    map Go.name (Go.data fig) = Pd.unique types /\
    (forall c, In c (Pd.values types) ->
       exists i, nth_error (Pd.unique types) i = Some c) /\
    forall i et, nth_error (Pd.unique types) i = Some et ->
      Dict.getitem color_map et = inr (rgba_string (channels i) "0.7") /\
      Dict.getitem y_position_map et = inr i /\
      exists tr, nth_error (Go.data fig) i = Some tr /\
        Go.name tr = et /\
        Go.color (Go.marker tr) = rgba_string (channels i) "0.7".
Proof.
  apply (colour_by_ordinal table_aba); vm_compute; reflexivity.
Defined.

(** C9. A frame whose category column has no rows renders without an
    exception, and the chart has no marker series: the loop body, with
    its date formatting, is never entered. *)
Theorem render_empty_table (df : Pd.DataFrame) (types : Pd.Series) :
  Pd.getitem df col_type = inr types ->
  Pd.values types = [] ->
  exists fig, create_timeline df = inr fig /\ Go.data fig = [].
Proof.
  intros Ht He. unfold create_timeline.
  rewrite (@generate_event_types_closed df types Ht).
  unfold Pd.unique. rewrite He. cbn [Pd.unique_from Py.enumerate length seq
    combine map bind add_traces ret].
  eexists; split; reflexivity.
Qed.

Lemma render_empty_table_witness :
  exists fig, create_timeline empty_table = inr fig /\ Go.data fig = [].
Proof.
  apply (@render_empty_table empty_table (Pd.mkSeries Pd.object []));
    reflexivity.
Defined.

(** ** Rows and markers *)

Lemma rows_category (D T H : list cell) :
  length D = length T -> length T = length H ->
  map category (combine (combine D T) H) = T.
Proof.
  revert T H; induction D as [|d D IH]; intros [|t T] [|h H] L1 L2;
    simpl in *; try discriminate; auto.
  unfold category at 1; cbn. f_equal. apply IH; lia.
Qed.

Lemma select_eq_mask_repeat (types : Pd.Series) (et : cell) :
  Pd.select (Pd.eq_mask types et) (Pd.values types)
  = repeat et (count (Pd.eq_mask types et)).
Proof.
  unfold count, Pd.eq_mask.
  induction (Pd.values types) as [|t T IH]; cbn [map Pd.select filter]; auto.
  destruct (Pd.cell_eqb t et) eqn:E; auto.
  apply cell_eqb_true in E; subst t. cbn [length repeat]. now rewrite IH.
Qed.

Lemma markers_trace_of (types dates descs : Pd.Series) (i : nat) (et : cell) :
  length (Pd.values dates) = length (Pd.values types) ->
  length (Pd.values types) = length (Pd.values descs) ->
  markers (trace_of types dates descs i et)
  = group category Pd.cell_eqb (rows types dates descs) et.
Proof.
  intros L1 L2. unfold markers, group, rows.
  cbn [Go.x Go.y Go.name Go.hovertext trace_of part Pd.values].
  rewrite repeat_length.
  rewrite <- select_filter, <- (map_map category (fun c => Pd.cell_eqb c et)).
  rewrite rows_category by assumption.
  fold (Pd.eq_mask types et).
  now rewrite !select_combine, select_eq_mask_repeat.
Qed.

Lemma markers_length (types dates descs : Pd.Series) (i : nat) (et : cell) :
  length (Pd.values dates) = length (Pd.values types) ->
  length (Pd.values types) = length (Pd.values descs) ->
  length (markers (trace_of types dates descs i et))
  = length (Pd.values (Go.x (trace_of types dates descs i et))).
Proof.
  intros L1 L2. unfold markers. rewrite !length_combine, repeat_length.
  cbn [Go.x Go.y Go.hovertext trace_of].
  rewrite repeat_length, !part_length by congruence. lia.
Qed.

Lemma flat_map_map (A B C : Type) (f : B -> list C) (g : A -> B) (l : list A) :
  flat_map f (map g l) = flat_map (fun a => f (g a)) l.
Proof. induction l as [|a l IH]; simpl; congruence. Qed.

(** C10. On an Event Table (every category a text) the series partition
    the rows: the markers of a series are the rows of its category, in
    table order; the series names are distinct; all markers together are
    a rearrangement of the rows, so that every row is shown once; and the
    marker counts add up to the number of rows. *)
Theorem render_partitions_rows (df : Pd.DataFrame) :
  renderable df = true ->
  text_categories df = true ->
  exists fig types dates descs,
    Pd.getitem df col_type = inr types /\
    Pd.getitem df col_date = inr dates /\
    Pd.getitem df col_desc = inr descs /\
    create_timeline df = inr fig /\
    length (rows types dates descs) = Pd.len df /\
    NoDup (map Go.name (Go.data fig)) /\
    (forall tr, In tr (Go.data fig) ->
       markers tr
       = filter (fun e => if cell_eq_dec (category e) (Go.name tr)
                          then true else false)
                (rows types dates descs)) /\
    Permutation (flat_map markers (Go.data fig)) (rows types dates descs) /\
    list_sum (map (fun tr => length (Pd.values (Go.x tr))) (Go.data fig))
    = Pd.len df.
Proof.
  intros H Htx.
  pose proof (text_categories_present df Htx) as Hp.
  destruct (render_chart df H (text_categories_valid df Htx))
    as (types & dates & descs & Ht & Hd & Hh & Lt & Ld & Lh & Hc).
  unfold categories_present in Hp. rewrite Ht in Hp.
  rewrite forallb_forall in Hp.
  assert (L1 : length (Pd.values dates) = length (Pd.values types))
    by congruence.
  assert (L2 : length (Pd.values types) = length (Pd.values descs))
    by congruence.
  assert (Hcat : forall e, In e (rows types dates descs) ->
                           In (category e) (Pd.values types)).
  { intros e He. rewrite <- (@rows_category _ _ _ L1 L2).
    now apply in_map. }
  assert (Heq : forall e k, In e (rows types dates descs) ->
                  (Pd.cell_eqb (category e) k = true <-> category e = k)).
  { intros e k He; split; [apply cell_eqb_true|intros <-].
    apply cell_eqb_refl. intros E. apply Hcat, Hp in He.
    rewrite E in He. discriminate. }
  assert (Hlen : length (rows types dates descs) = Pd.len df).
  { unfold rows. rewrite !length_combine. lia. }
  assert (Hperm : Permutation
            (flat_map markers (Go.data (chart types dates descs)))
            (rows types dates descs)).
  { unfold chart; cbn [Go.data]. rewrite flat_map_map.
    rewrite (flat_map_agree _
               (fun ie => group category Pd.cell_eqb
                            (rows types dates descs) (snd ie)))
      by (intros; now apply markers_trace_of).
    rewrite <- (flat_map_map (group category Pd.cell_eqb
                                (rows types dates descs)) snd).
    rewrite enumerate_snd.
    apply groups_partition.
    - apply unique_from_NoDup.
    - intros e He. apply unique_from_In. split; [auto|intros []].
    - intros e k He _. now apply Heq. }
  exists (chart types dates descs), types, dates, descs.
  split; [assumption|]. split; [assumption|]. split; [assumption|].
  split; [assumption|]. split; [assumption|].
  split; [rewrite chart_names; apply unique_from_NoDup|].
  split; [|split; [assumption|]].
  - intros tr Htr. apply chart_In in Htr as (i & et & He & ->).
    rewrite markers_trace_of by assumption.
    unfold group. cbn [Go.name trace_of].
    apply filter_ext_in. intros e Hin.
    destruct (cell_eq_dec (category e) et) as [E|E].
    + now apply Heq.
    + destruct (Pd.cell_eqb (category e) et) eqn:B; auto.
      apply cell_eqb_true in B. contradiction.
  - rewrite <- Hlen, <- (Permutation_length Hperm), length_flat_map_sum.
    f_equal. apply map_ext_in. intros tr Htr.
    apply chart_In in Htr as (i & et & He & ->).
    symmetry. now apply markers_length.
Qed.

Lemma render_partitions_rows_witness :
  exists fig types dates descs,
    Pd.getitem table_aba col_type = inr types /\
    Pd.getitem table_aba col_date = inr dates /\
    Pd.getitem table_aba col_desc = inr descs /\
    create_timeline table_aba = inr fig /\
    length (rows types dates descs) = Pd.len table_aba /\
    NoDup (map Go.name (Go.data fig)) /\
    (forall tr, In tr (Go.data fig) ->
       markers tr
       = filter (fun e => if cell_eq_dec (category e) (Go.name tr)
                          then true else false)
                (rows types dates descs)) /\
    Permutation (flat_map markers (Go.data fig)) (rows types dates descs) /\
    list_sum (map (fun tr => length (Pd.values (Go.x tr))) (Go.data fig))
    = Pd.len table_aba.
Proof.
  apply (render_partitions_rows table_aba); vm_compute; reflexivity.
Defined.

(** ** The caption *)

(** C6. The caption is a function of the tick alone, and the tick does
    not matter: the completion threshold is 12, a tick at or above it and
    a tick below it give the same lines and fragments, and so does every
    other pair of ticks. *)
Theorem caption_same_every_tick (t1 t2 : Z) :
  (12 <= t1)%Z -> (t2 < 12)%Z ->
  (Z.of_nat (length caption_text) * 2 = 12)%Z /\
  update_motivational_text t1 = update_motivational_text t2 /\
  (forall t t', t = t' ->
                update_motivational_text t = update_motivational_text t') /\
  (forall t, update_motivational_text t = update_motivational_text t2).
Proof.
  intros _ _.
  assert (G : forall a b,
             update_motivational_text a = update_motivational_text b).
  { intros a b. unfold update_motivational_text.
    destruct (_ <=? a)%Z, (_ <=? b)%Z; reflexivity. }
  split; [reflexivity|]. split; [apply G|]. split; [|intros; apply G].
  intros t t' E. now rewrite E.
Qed.

Lemma caption_same_every_tick_witness :
  (Z.of_nat (length caption_text) * 2 = 12)%Z /\
  update_motivational_text 12 = update_motivational_text 0 /\
  (forall t t', t = t' ->
                update_motivational_text t = update_motivational_text t') /\
  (forall t, update_motivational_text t = update_motivational_text 0).
Proof. apply (@caption_same_every_tick 12%Z 0%Z); lia. Defined.

(** ** Start-up and upload *)

(** C8, as stated, fails: with [events.xlsx] present and unreadable,
    [load_default_events] raises and start-up fails with it. *)
Lemma load_default_events_raises :
  startup (fun _ => true)
          (reads_as (inl (LibraryError "File is not a zip file")))
  = inl (LibraryError "File is not a zip file").
Proof. reflexivity. Qed.

(** C8, amended. [load_default_events] returns the built-in three-row
    sample when [events.xlsx] is absent, and the table read from the file
    when it is present and readable. *)
Theorem load_default_events_returns (os_path_exists : string -> bool)
    (read_excel : excel_source -> result Pd.DataFrame) :
  (os_path_exists "events.xlsx" = false ->
     load_default_events os_path_exists read_excel = inr sample_df /\
     Pd.len sample_df = 3) /\
  (forall df, os_path_exists "events.xlsx" = true ->
     read_excel (Path "events.xlsx") = inr df ->
     load_default_events os_path_exists read_excel = inr df).
Proof.
  unfold load_default_events. split.
  - intros ->. split; reflexivity.
  - intros df -> ->. reflexivity.
Qed.

(** C7, as stated, fails: a sheet without the category column is parsed
    and stored as it is, not replaced by the default dataset; the chart
    callback then raises [KeyError] on it. *)
Lemma store_file_keeps_incomplete_sheet :
  Pd.getitem sheet_without_category col_type = inl (KeyError (Str col_type)) /\
  store_file (reads_as (inr sheet_without_category)) (decodes_to [])
             sample_df (Some "data:application/octet-stream;base64,UEsDBA==")
             (Some "events.xlsx")
  = inr (Some (Pd.to_dict_records sheet_without_category)) /\
  Pd.to_dict_records sheet_without_category <> Pd.to_dict_records sample_df /\
  update_graph sample_df (Some (Pd.to_dict_records sheet_without_category))
  = inl (KeyError (Str col_type)).
Proof.
  split; [reflexivity|]. split; [reflexivity|]. split; [|reflexivity].
  vm_compute. discriminate.
Qed.

(** C7, amended. Once the data URI is split and unwrapped, a payload on
    which [pd.read_excel] raises makes [store_file] return the records of
    the default dataset, and a payload that parses makes it return the
    records of the parsed sheet, whatever its columns. *)
Theorem store_file_parse_outcomes
    (read_excel : excel_source -> result Pd.DataFrame)
    (b64decode : string -> result (list Byte.byte))
    (default_events_df : Pd.DataFrame)
    (contents content_type content_string : string)
    (decoded : list Byte.byte) (filename : option string) :
  Py.split "," contents = [content_type; content_string] ->
  b64decode content_string = inr decoded ->
  (forall e, read_excel (BytesIO decoded) = inl e ->
     store_file read_excel b64decode default_events_df (Some contents) filename
     = inr (Some (Pd.to_dict_records default_events_df))) /\
  (forall events_df, read_excel (BytesIO decoded) = inr events_df ->
     store_file read_excel b64decode default_events_df (Some contents) filename
     = inr (Some (Pd.to_dict_records events_df))).
Proof.
  intros Hs Hb. unfold store_file. rewrite Hs, Hb. cbn [bind].
  split; intros ? ->; reflexivity.
Qed.

Lemma store_file_parse_outcomes_witness :
  (forall e, reads_as (inl (LibraryError "File is not a zip file"))
               (BytesIO []) = inl e ->
     store_file (reads_as (inl (LibraryError "File is not a zip file")))
                (decodes_to []) sample_df (Some "a,b") None
     = inr (Some (Pd.to_dict_records sample_df))) /\
  (forall events_df,
     reads_as (inl (LibraryError "File is not a zip file"))
       (BytesIO []) = inr events_df ->
     store_file (reads_as (inl (LibraryError "File is not a zip file")))
                (decodes_to []) sample_df (Some "a,b") None
     = inr (Some (Pd.to_dict_records events_df))).
Proof.
  apply (@store_file_parse_outcomes
           (reads_as (inl (LibraryError "File is not a zip file")))
           (decodes_to []) sample_df "a,b" "a" "b" [] None); reflexivity.
Defined.

(** ** A frame through [to_dict('records')] and back *)

Lemma distinct_NoDup (l : list string) : distinct l = true -> NoDup l.
Proof.
  induction l as [|c l IH]; cbn [distinct]; intros H; constructor.
  - apply andb_prop in H as [H _]. intros Hin.
    apply negb_true_iff in H.
    assert (E : existsb (String.eqb c) l = true).
    { apply existsb_exists. exists c. split; auto. apply String.eqb_refl. }
    congruence.
  - apply andb_prop in H as [_ H]. auto.
Qed.

Lemma add_keys_fresh (ks seen : list string) :
  NoDup ks -> (forall k, In k ks -> ~ In k seen) ->
  Pd.add_keys seen ks = seen ++ ks.
Proof.
  revert seen; induction ks as [|k ks IH]; intros seen Hnd Hf; cbn.
  - now rewrite app_nil_r.
  - inversion Hnd as [|? ? Hk Hnd']; subst.
    destruct (in_dec string_dec k seen) as [Hin|_].
    + exfalso. apply (Hf k); simpl; auto.
    + rewrite IH, <- app_assoc; auto.
      intros k' Hk' Hin. apply in_app_or in Hin as [Hin|[->|[]]]; auto.
      apply (Hf k'); simpl; auto.
Qed.

Lemma add_keys_known (ks seen : list string) :
  (forall k, In k ks -> In k seen) -> Pd.add_keys seen ks = seen.
Proof.
  induction ks as [|k ks IH]; intros H; cbn; auto.
  destruct (in_dec string_dec k seen) as [_|Hn].
  - apply IH. intros; apply H; simpl; auto.
  - exfalso. apply Hn, H. simpl; auto.
Qed.

Lemma record_columns_same (recs : list Pd.record) (cols : list string) :
  NoDup cols -> recs <> [] ->
  (forall r, In r recs -> map fst r = cols) ->
  Pd.record_columns recs = cols.
Proof.
  intros Hnd Hne Hall. unfold Pd.record_columns.
  destruct recs as [|r recs]; [congruence|]. cbn [fold_left].
  rewrite (Hall r) by (simpl; auto).
  rewrite add_keys_fresh by (auto; intros ? ? []). cbn [app].
  assert (G : forall l : list Pd.record,
            (forall r', In r' l -> map fst r' = cols) ->
            fold_left (fun seen (r' : Pd.record) =>
                         Pd.add_keys seen (map fst r')) l cols
            = cols).
  { induction l as [|r' l IH]; intros Hl; cbn [fold_left]; auto.
    rewrite (Hl r') by (simpl; auto).
    rewrite add_keys_known by auto.
    apply IH. intros; apply Hl; simpl; auto. }
  apply G. intros; apply Hall; simpl; auto.
Qed.

Lemma record_get_row (f : cell -> cell) (df : Pd.DataFrame) (i : nat)
    (c : string) :
  Pd.record_get
    (map (fun cs => (fst cs, f (nth i (Pd.values (snd cs)) NaN))) df) c
  = match Pd.getitem df c with
    | inr s => f (nth i (Pd.values s) NaN)
    | inl _ => NaN
    end.
Proof.
  induction df as [|[c' s'] df IH]; cbn; auto.
  destruct (string_dec c c'); auto.
Qed.

Lemma getitem_In (df : Pd.DataFrame) (c : string) (s : Pd.Series) :
  NoDup (map fst df) -> In (c, s) df -> Pd.getitem df c = inr s.
Proof.
  induction df as [|[c' s'] df IH]; intros Hnd Hin; [destruct Hin|].
  inversion Hnd as [|? ? Hc Hnd']; subst. cbn.
  destruct Hin as [E|Hin].
  - injection E as -> ->. destruct (string_dec c c); [reflexivity|congruence].
  - destruct (string_dec c c') as [->|_]; auto.
    exfalso. apply Hc. now apply (in_map fst) in Hin.
Qed.

Lemma nth_seq_all (l : list cell) :
  map (fun i => nth i l NaN) (seq 0 (length l)) = l.
Proof.
  induction l as [|a l IH]; cbn [length seq map nth]; auto.
  rewrite <- seq_shift, map_map. now rewrite IH.
Qed.

(** The frame rebuilt from the records of a tabular frame, each cell
    sent through [f] on the way: the columns of the frame, their cells
    sent through [f], the dtypes inferred afresh. *)
Lemma of_records_mapped (f : cell -> cell) (df : Pd.DataFrame) :
  tabular df = true ->
  Pd.of_records
    (map (fun r : Pd.record => map (fun kv => (fst kv, f (snd kv))) r)
         (Pd.to_dict_records df))
  = map (fun cs =>
           (fst cs,
            Pd.mkSeries (Pd.infer_dtype (map f (Pd.values (snd cs))))
                        (map f (Pd.values (snd cs))))) df.
Proof.
  unfold tabular. intros H.
  apply andb_prop in H as [H Hd]. apply andb_prop in H as [Hr Hn].
  apply distinct_NoDup in Hd. apply Nat.leb_le in Hn.
  unfold Pd.of_records, Pd.to_dict_records.
  rewrite (@record_columns_same _ (map fst df)); auto.
  - rewrite map_map. apply map_ext_in. intros [c s] Hin. cbn [fst snd].
    assert (E : map (fun r : Pd.record => Pd.record_get r c)
                  (map (fun r : Pd.record =>
                          map (fun kv => (fst kv, f (snd kv))) r)
                       (map (fun i =>
                               map (fun cs =>
                                      (fst cs, nth i (Pd.values (snd cs)) NaN))
                                   df)
                            (seq 0 (Pd.len df))))
                = map f (Pd.values s)).
    { rewrite !map_map.
      rewrite (map_ext _ (fun i => f (nth i (Pd.values s) NaN))).
      - rewrite <- (@rectangular_column df c s Hr (@getitem_In df c s Hd Hin)).
        rewrite <- (map_map (fun i => nth i (Pd.values s) NaN) f).
        now rewrite nth_seq_all.
      - intros i. rewrite map_map. cbn [fst snd].
        now rewrite (record_get_row f), (@getitem_In df c s Hd Hin). }
    now rewrite E.
  - destruct (Pd.len df); [lia|]. discriminate.
  - intros r Hr'. apply in_map_iff in Hr' as (r0 & <- & Hr0).
    apply in_map_iff in Hr0 as (i & <- & _).
    now rewrite !map_map.
Qed.

(** C4, as stated, fails: with an uploaded table active, a failed decode
    puts the records of the default dataset into the store, and the
    active table changes from the uploaded one to the default. *)
Lemma failed_upload_discards_upload :
  events_df_of sample_df (Some (Pd.to_dict_records uploaded_before))
  = uploaded_before /\
  store_file (reads_as (inl (LibraryError "File is not a zip file")))
             (decodes_to []) sample_df
             (Some "data:application/octet-stream;base64,AAAA")
             (Some "broken.xlsx")
  = inr (Some (Pd.to_dict_records sample_df)) /\
  events_df_of sample_df (Some (Pd.to_dict_records sample_df)) = sample_df /\
  sample_df <> uploaded_before.
Proof.
  split; [reflexivity|]. split; [reflexivity|]. split; [reflexivity|].
  vm_compute. discriminate.
Qed.

(** C4, amended. After an upload whose decode fails, the store holds
    the records of the default dataset, whatever it held before; its
    content is what it was before the call exactly when it already held
    those records. *)
Theorem failed_upload_restores_default
    (read_excel : excel_source -> result Pd.DataFrame)
    (b64decode : string -> result (list Byte.byte))
    (default_events_df : Pd.DataFrame)
    (data_before : option (list Pd.record))
    (contents content_type content_string : string)
    (decoded : list Byte.byte) (e : exn) (filename : option string) :
  Py.split "," contents = [content_type; content_string] ->
  b64decode content_string = inr decoded ->
  read_excel (BytesIO decoded) = inl e ->
  exists data_after,
    store_file read_excel b64decode default_events_df (Some contents) filename
    = inr data_after /\
    data_after = Some (Pd.to_dict_records default_events_df) /\
    (data_after = data_before <->
     data_before = Some (Pd.to_dict_records default_events_df)).
Proof.
  intros Hs Hb Hr. exists (Some (Pd.to_dict_records default_events_df)).
  split; [|split; [reflexivity|]].
  - unfold store_file. rewrite Hs, Hb. cbn [bind]. now rewrite Hr.
  - split; intros E; congruence.
Qed.

Lemma failed_upload_restores_default_witness :
  exists data_after,
    store_file (reads_as (inl (LibraryError "File is not a zip file")))
               (decodes_to []) sample_df (Some "a,b") None
    = inr data_after /\
    data_after = Some (Pd.to_dict_records sample_df) /\
    (data_after = Some (Pd.to_dict_records uploaded_before) <->
     Some (Pd.to_dict_records uploaded_before)
     = Some (Pd.to_dict_records sample_df)).
Proof.
  apply (@failed_upload_restores_default
           (reads_as (inl (LibraryError "File is not a zip file")))
           (decodes_to []) sample_df
           (Some (Pd.to_dict_records uploaded_before))
           "a,b" "a" "b" [] (LibraryError "File is not a zip file") None);
    reflexivity.
Defined.

(** ** The template *)

(** The template workbook holds the frame of the built-in sample: the
    two literals of the script agree. *)
Lemma create_excel_template_sample
    (to_excel : Pd.DataFrame -> string -> list Byte.byte) :
  create_excel_template to_excel = inr (to_excel sample_df "Sheet1") /\
  Pd.len sample_df = 3.
Proof. split; reflexivity. Qed.

(** ** Worked tables *)

(** The table of the specification's example: categories A and B in that
    order, A on lane 0 with its two labels below and above, B on lane 1
    with its one label below. *)
Example table_aba_chart :
  exists fig,
    create_timeline table_aba = inr fig /\
    map Go.name (Go.data fig) = [Str "A"; Str "B"] /\
    map Go.y (Go.data fig) = [[0; 0]; [1]] /\
    map Go.textposition (Go.data fig)
    = [["bottom center"; "top center"]; ["bottom center"]] /\
    map (fun tr => Pd.values (Go.text tr)) (Go.data fig)
    = [[Str "01-01"; Str "12-25"]; [Str "05-01"]] /\
    map (fun tr => Go.color (Go.marker tr)) (Go.data fig)
    = ["rgba(0, 0, 0, 0.7)"; "rgba(70, 120, 180, 0.7)"].
Proof. eexists. repeat split; vm_compute; reflexivity. Qed.

(** Why C10 asks for categories: a row whose category is missing gets a
    series of its own that stays empty, and is shown nowhere. *)
Remark table_gap_drops_row :
  categories_present table_gap = false /\
  exists fig,
    create_timeline table_gap = inr fig /\
    map Go.name (Go.data fig) = [Str "A"; NaN] /\
    map (fun tr => length (Pd.values (Go.x tr))) (Go.data fig) = [2; 0] /\
    Pd.len table_gap = 3.
Proof. split; [reflexivity|]. eexists. repeat split; vm_compute; reflexivity. Qed.

(** The empty table of C9 does not survive the store: a header-only
    sheet leaves no records, the frame rebuilt from none has no columns,
    and [update_graph] raises on it. *)
Remark header_only_upload_raises :
  Pd.to_dict_records empty_table = [] /\
  update_graph sample_df (Some (Pd.to_dict_records empty_table))
  = inl (KeyError (Str col_type)).
Proof. split; reflexivity. Qed.

(** * Further properties of the script *)

(** ** The data URI of an upload *)

Lemma split_nonempty (sep : ascii) (s : string) : Py.split sep s <> [].
Proof.
  destruct s as [|c s]; cbn [Py.split]; [discriminate|].
  destruct (Ascii.eqb c sep); [discriminate|].
  destruct (Py.split sep s); discriminate.
Qed.

Lemma split_length (sep : ascii) (s : string) :
  length (Py.split sep s) = S (count_char sep s).
Proof.
  induction s as [|c s IH]; cbn [Py.split count_char]; auto.
  destruct (Ascii.eqb c sep); cbn [length]; [now rewrite IH|].
  pose proof (split_nonempty sep s) as Hne.
  destruct (Py.split sep s) as [|h t]; [congruence|].
  cbn [length] in *. now rewrite IH.
Qed.

(** X1. [store_file] returns normally on an upload exactly when the data
    URI holds one comma and the part after it decodes as base64; with any
    other number of commas it raises [ValueError], and nothing of this is
    covered by the fallback to the default dataset. *)
Theorem store_file_returns_iff
    (read_excel : excel_source -> result Pd.DataFrame)
    (b64decode : string -> result (list Byte.byte))
    (default_events_df : Pd.DataFrame)
    (contents : string) (filename : option string) :
  (count_char "," contents <> 1 ->
   store_file read_excel b64decode default_events_df (Some contents) filename
   = inl (ValueError "wrong number of values to unpack")) /\
  ((exists data,
      store_file read_excel b64decode default_events_df (Some contents)
                 filename = inr data) <->
   count_char "," contents = 1 /\
   exists content_type content_string decoded,
     Py.split "," contents = [content_type; content_string] /\
     b64decode content_string = inr decoded).
Proof.
  pose proof (split_length "," contents) as L.
  unfold store_file.
  destruct (Py.split "," contents) as [|a [|b [|c l]]] eqn:E;
    cbn [length] in L.
  - discriminate.
  - split; [reflexivity|]. split.
    + intros [data H]. discriminate.
    + intros [H _]. lia.
  - split; [intros H; exfalso; lia|]. split.
    + intros [data H]. split; [lia|].
      destruct (b64decode b) as [e|decoded] eqn:B; [discriminate|].
      exists a, b, decoded. auto.
    + intros (_ & ct & cs & decoded & Hs & Hb).
      injection Hs as <- <-. rewrite Hb. cbn [bind].
      destruct (read_excel (BytesIO decoded)); eexists; reflexivity.
  - split; [reflexivity|]. split.
    + intros [data H]. discriminate.
    + intros [H _]. lia.
Qed.

(** ** From the upload to the chart *)

(** X3. A sheet that parses to a frame without rows, whatever its
    columns, leaves the store with an empty list of records; the frame
    rebuilt from it has no columns, and [update_graph] raises [KeyError]
    on the category column. *)
Theorem upload_without_rows_raises
    (read_excel : excel_source -> result Pd.DataFrame)
    (b64decode : string -> result (list Byte.byte))
    (default_events_df events_df : Pd.DataFrame)
    (contents content_type content_string : string)
    (decoded : list Byte.byte) (filename : option string) :
  Py.split "," contents = [content_type; content_string] ->
  b64decode content_string = inr decoded ->
  read_excel (BytesIO decoded) = inr events_df ->
  Pd.len events_df = 0 ->
  store_file read_excel b64decode default_events_df (Some contents) filename
  = inr (Some []) /\
  events_df_of default_events_df (Some []) = [] /\
  update_graph default_events_df (Some []) = inl (KeyError (Str col_type)).
Proof.
  intros Hs Hb Hr Hl. unfold store_file. rewrite Hs, Hb. cbn [bind].
  rewrite Hr. unfold Pd.to_dict_records. rewrite Hl.
  repeat split.
Qed.

Lemma upload_without_rows_raises_witness :
  store_file (reads_as (inr empty_table)) (decodes_to []) sample_df
             (Some "a,b") None = inr (Some []) /\
  events_df_of sample_df (Some []) = [] /\
  update_graph sample_df (Some []) = inl (KeyError (Str col_type)).
Proof.
  apply (@upload_without_rows_raises (reads_as (inr empty_table))
           (decodes_to []) sample_df empty_table "a,b" "a" "b" [] None);
    reflexivity.
Defined.

(** ** When the renderer raises *)

Lemma getitem_error (df : Pd.DataFrame) (c : string) (e : exn) :
  Pd.getitem df c = inl e -> e = KeyError (Str c).
Proof.
  induction df as [|[c' s'] df IH]; cbn.
  - now intros [= <-].
  - destruct (string_dec c c'); [discriminate|auto].
Qed.

Lemma unique_head (types : Pd.Series) :
  Pd.values types <> [] -> exists et rest, Pd.unique types = et :: rest.
Proof.
  unfold Pd.unique. destruct (Pd.values types) as [|v l]; [congruence|].
  intros _. cbn. eauto.
Qed.

Lemma event_type_lookups (types : Pd.Series) (i : nat) (et : cell) :
  nth_error (Pd.unique types) i = Some et ->
  Dict.getitem (map (fun ie => (snd ie, rgba (fst ie)))
                    (Py.enumerate (Pd.unique types))) et = inr (rgba i) /\
  Dict.getitem (map (fun ie : nat * cell => (snd ie, fst ie))
                    (Py.enumerate (Pd.unique types))) et = inr i.
Proof.
  intros Hi.
  split; eapply getitem_nth;
    try (rewrite map_map; cbn [fst snd]; rewrite enumerate_snd;
         apply unique_from_NoDup);
    rewrite nth_error_map, (@enumerate_nth _ _ i et Hi); reflexivity.
Qed.

Section TraceOutcome.
Variable df : Pd.DataFrame.
Variable types : Pd.Series.
Variable cm : Dict.dict string.
Variable ym : Dict.dict nat.
Variables (i : nat) (et : cell).
Hypothesis Htypes : Pd.getitem df col_type = inr types.
Hypothesis Hy : Dict.getitem ym et = inr i.
Hypothesis Hc : Dict.getitem cm et = inr (rgba i).

Lemma make_trace_no_dates (e : exn) :
  Pd.getitem df col_date = inl e ->
  make_trace df cm ym et = inl (KeyError (Str col_date)).
Proof.
  intros Hd. unfold make_trace. rewrite Htypes; cbn [bind].
  rewrite getitem_loc, Hd. cbn [bind].
  now rewrite (getitem_error _ _ Hd).
Qed.

Lemma make_trace_not_datetime (dates : Pd.Series) :
  Pd.getitem df col_date = inr dates ->
  Pd.dtype_of dates <> Pd.datetime64 ->
  make_trace df cm ym et
  = inl (AttributeError "Can only use .dt accessor with datetimelike values").
Proof.
  intros Hd Hdt. unfold make_trace. rewrite Htypes; cbn [bind].
  rewrite !getitem_loc, Hd, Hy. cbn [bind].
  unfold Pd.dt_strftime_md. cbn [Pd.dtype_of].
  destruct (Pd.dtype_of dates); try reflexivity. congruence.
Qed.

Lemma make_trace_no_descs (dates : Pd.Series) (e : exn) :
  Pd.getitem df col_date = inr dates ->
  Pd.dtype_of dates = Pd.datetime64 ->
  Pd.getitem df col_desc = inl e ->
  make_trace df cm ym et = inl (KeyError (Str col_desc)).
Proof.
  intros Hd Hdt Hh. unfold make_trace. rewrite Htypes; cbn [bind].
  rewrite !getitem_loc, Hd, Hy, Hh. cbn [bind].
  unfold Pd.dt_strftime_md. cbn [Pd.dtype_of]. rewrite Hdt. cbn [bind].
  now rewrite (getitem_error _ _ Hh).
Qed.

Lemma make_trace_returns (dates descs : Pd.Series) :
  Pd.getitem df col_date = inr dates ->
  Pd.dtype_of dates = Pd.datetime64 ->
  Pd.getitem df col_desc = inr descs ->
  Go.name_valid (Pd.dtype_of types) et = true ->
  exists tr, make_trace df cm ym et = inr tr /\ Go.name tr = et.
Proof.
  intros Hd Hdt Hh Hv. unfold make_trace. rewrite Htypes; cbn [bind].
  rewrite !getitem_loc, Hd, Hy, Hh, Hc. cbn [bind].
  unfold Pd.dt_strftime_md. cbn [Pd.dtype_of]. rewrite Hdt. cbn [bind].
  unfold Go.Scatter_new. cbn [Go.name]. rewrite Hv.
  eexists; split; reflexivity.
Qed.
End TraceOutcome.

Lemma add_traces_returns (df : Pd.DataFrame)
    (cm : Dict.dict string) (ym : Dict.dict nat) (ets : list cell) :
  (forall et, In et ets ->
     exists tr, make_trace df cm ym et = inr tr /\ Go.name tr = et) ->
  forall fig, exists traces,
    add_traces df cm ym ets fig
    = inr (Go.mkFigure (Go.data fig ++ traces) (Go.layout fig)) /\
    map Go.name traces = ets.
Proof.
  induction ets as [|et rest IH]; intros H fig.
  - exists []. cbn. rewrite app_nil_r. now destruct fig.
  - destruct (H et) as (tr & Htr & Hn); [now left|].
    destruct (IH (fun et' Hin => H et' (or_intror Hin)) (Go.add_trace fig tr))
      as (traces & Ht & Hns).
    exists (tr :: traces). cbn [add_traces]. rewrite Htr; cbn [bind].
    rewrite Ht. cbn [Go.add_trace Go.data Go.layout map].
    rewrite <- app_assoc. cbn [app]. split; congruence.
Qed.

Lemma create_timeline_first_error (df : Pd.DataFrame) (types : Pd.Series)
    (et : cell) (rest : list cell) (e : exn) :
  Pd.getitem df col_type = inr types ->
  Pd.unique types = et :: rest ->
  make_trace df
    (map (fun ie => (snd ie, rgba (fst ie))) (Py.enumerate (Pd.unique types)))
    (map (fun ie : nat * cell => (snd ie, fst ie))
         (Py.enumerate (Pd.unique types))) et = inl e ->
  create_timeline df = inl e.
Proof.
  intros Ht Hu Hm. unfold create_timeline.
  rewrite (@generate_event_types_closed df types Ht); cbn [bind].
  rewrite Hu in *. cbn [add_traces]. rewrite Hm. reflexivity.
Qed.

Lemma create_timeline_needs (df : Pd.DataFrame) (types : Pd.Series)
    (fig : Go.Figure) :
  Pd.getitem df col_type = inr types ->
  Pd.values types <> [] ->
  create_timeline df = inr fig ->
  exists dates descs,
    Pd.getitem df col_date = inr dates /\
    Pd.dtype_of dates = Pd.datetime64 /\
    Pd.getitem df col_desc = inr descs.
Proof.
  intros Ht Hne Hf.
  destruct (unique_head types Hne) as (et & rest & Hu).
  assert (H0 : nth_error (Pd.unique types) 0 = Some et)
    by (now rewrite Hu).
  destruct (event_type_lookups types 0 H0) as [Hc Hy].
  destruct (Pd.getitem df col_date) as [e|dates] eqn:Hd.
  { rewrite (@create_timeline_first_error df types et rest
               (KeyError (Str col_date)) Ht Hu) in Hf; [discriminate|].
    eapply make_trace_no_dates; eauto. }
  destruct (Pd.dtype_eq_dec (Pd.dtype_of dates) Pd.datetime64) as [Hdt|Hdt].
  2:{ rewrite (@create_timeline_first_error df types et rest
                 (AttributeError
                    "Can only use .dt accessor with datetimelike values")
                 Ht Hu) in Hf; [discriminate|].
      eapply make_trace_not_datetime; eauto. }
  destruct (Pd.getitem df col_desc) as [e|descs] eqn:Hh.
  { rewrite (@create_timeline_first_error df types et rest
               (KeyError (Str col_desc)) Ht Hu) in Hf; [discriminate|].
    eapply make_trace_no_descs; eauto. }
  exists dates, descs. auto.
Qed.




(** X5. On a frame whose category column is an object column of texts
    and gaps, the renderer returns a figure exactly when that column has
    no rows, or the date column is a datetime column and the description
    column exists; the figure then has one series per distinct category,
    in first-seen order.  Columns of unequal length do not make it
    raise. *)
Theorem create_timeline_returns_iff (df : Pd.DataFrame) :
  object_categories df = true ->
  exists types,
    Pd.getitem df col_type = inr types /\
    ((exists fig, create_timeline df = inr fig) <->
     (Pd.values types = [] \/
      exists dates descs,
        Pd.getitem df col_date = inr dates /\
        Pd.dtype_of dates = Pd.datetime64 /\
        Pd.getitem df col_desc = inr descs)) /\
    (forall fig, create_timeline df = inr fig ->
       map Go.name (Go.data fig) = Pd.unique types).
Proof.
  intros Hobj. pose proof (object_categories_valid df Hobj) as Hval.
  unfold names_valid in Hval.
  destruct (Pd.getitem df col_type) as [e|types] eqn:Ht; [discriminate|].
  rewrite forallb_forall in Hval.
  exists types. split; [reflexivity|].
  assert (Ok :
    (Pd.values types = [] \/
      exists dates descs,
        Pd.getitem df col_date = inr dates /\
        Pd.dtype_of dates = Pd.datetime64 /\
        Pd.getitem df col_desc = inr descs) ->
    exists fig, create_timeline df = inr fig /\
                map Go.name (Go.data fig) = Pd.unique types).
  { intros Hcols. unfold create_timeline.
    rewrite (@generate_event_types_closed df types Ht); cbn [bind].
    set (cm := map (fun ie => (snd ie, rgba (fst ie)))
                   (Py.enumerate (Pd.unique types))).
    set (ym := map (fun ie : nat * cell => (snd ie, fst ie))
                   (Py.enumerate (Pd.unique types))).
    assert (Hall : forall et, In et (Pd.unique types) ->
              exists tr, make_trace df cm ym et = inr tr /\ Go.name tr = et).
    { intros et Hin. destruct Hcols as [He|(dates & descs & Hd & Hdt & Hh)].
      - unfold Pd.unique in Hin. rewrite He in Hin. destruct Hin.
      - pose proof (Hval et Hin) as Hv.
        apply In_nth_error in Hin as [i Hi].
        destruct (event_type_lookups types i Hi) as [Hc Hy].
        eapply make_trace_returns; eauto. }
    destruct (@add_traces_returns df cm ym (Pd.unique types) Hall
                Go.Figure_new) as (traces & Ha & Hn).
    rewrite Ha. cbn [bind ret]. eexists. split; [reflexivity|].
    cbn [Go.update_xaxes Go.data Go.Figure_new app]. exact Hn. }
  assert (Need : forall fig, create_timeline df = inr fig ->
    Pd.values types = [] \/
      exists dates descs,
        Pd.getitem df col_date = inr dates /\
        Pd.dtype_of dates = Pd.datetime64 /\
        Pd.getitem df col_desc = inr descs).
  { intros fig Hf.
    destruct (Pd.values types) as [|v l] eqn:Hv; [now left|right].
    apply (@create_timeline_needs df types fig); auto.
    rewrite Hv; discriminate. }
  split; [split|].
  - intros [fig Hf]. now apply (Need fig).
  - intros Hcols. destruct (Ok Hcols) as (fig & Hf & _). eauto.
  - intros fig Hf.
    destruct (Ok (Need fig Hf)) as (fig' & Hf' & Hn). congruence.
Qed.

Lemma create_timeline_returns_iff_witness :
  exists types,
    Pd.getitem table_gap col_type = inr types /\
    ((exists fig, create_timeline table_gap = inr fig) <->
     (Pd.values types = [] \/
      exists dates descs,
        Pd.getitem table_gap col_date = inr dates /\
        Pd.dtype_of dates = Pd.datetime64 /\
        Pd.getitem table_gap col_desc = inr descs)) /\
    (forall fig, create_timeline table_gap = inr fig ->
       map Go.name (Go.data fig) = Pd.unique types).
Proof. apply (create_timeline_returns_iff table_gap). reflexivity. Defined.

(** X14. A frame the renderer would otherwise accept whose category
    column is an integer column with a row makes [create_timeline] raise
    plotly's [ValueError]: the numpy integer handed over as the name of
    the first series is refused. *)
Theorem create_timeline_refuses_integers (df : Pd.DataFrame)
    (types : Pd.Series) :
  renderable df = true ->
  Pd.getitem df col_type = inr types ->
  Pd.dtype_of types = Pd.int64 ->
  Pd.values types <> [] ->
  forallb Pd.is_int (Pd.values types) = true ->
  create_timeline df = inl Go.name_error.
Proof.
  intros H Ht Hdt Hne Hint.
  destruct (render_outcome df H)
    as (types' & dates & descs & Ht' & _ & _ & _ & _ & _ & Hc).
  assert (types' = types) by congruence. subst types'.
  rewrite Hc, Hdt.
  destruct (unique_head types Hne) as (et & rest & Hu). rewrite Hu.
  assert (Hin : In et (Pd.values types)).
  { apply (unique_from_In [] (Pd.values types) et).
    fold (Pd.unique types). rewrite Hu. now left. }
  rewrite forallb_forall in Hint. apply Hint in Hin.
  destruct et; try discriminate. reflexivity.
Qed.

Lemma create_timeline_refuses_integers_witness :
  create_timeline table_int_categories = inl Go.name_error.
Proof.
  apply (@create_timeline_refuses_integers table_int_categories
           (Pd.mkSeries Pd.int64 [Int 2; Int 1; Int 2]));
    try reflexivity. discriminate.
Defined.

(** ** The arrays of a series *)

(** X6. On a frame the renderer accepts whose category column is an
    object column of texts and gaps, the chart has a series for every
    distinct category, and the arrays of every series line up: as many
    lanes, labels, label placements and hover texts as dates, and the
    label of each marker is its own date printed as month-day. *)
Theorem trace_arrays_aligned (df : Pd.DataFrame) :
  renderable df = true ->
  object_categories df = true ->
  exists fig types,
    Pd.getitem df col_type = inr types /\
    create_timeline df = inr fig /\
    map Go.name (Go.data fig) = Pd.unique types /\
    forall tr, In tr (Go.data fig) ->
      length (Go.y tr) = length (Pd.values (Go.x tr)) /\
      length (Pd.values (Go.text tr)) = length (Pd.values (Go.x tr)) /\
      length (Go.textposition tr) = length (Pd.values (Go.x tr)) /\
      length (Pd.values (Go.hovertext tr)) = length (Pd.values (Go.x tr)) /\
      Pd.values (Go.text tr) = map Pd.strftime_md (Pd.values (Go.x tr)).
Proof.
  intros H Hobj.
  destruct (render_chart df H (object_categories_valid df Hobj))
    as (types & dates & descs & Ht & Hd & Hh & Lt & Ld & Lh & Hc).
  exists (chart types dates descs), types.
  split; [assumption|]. split; [assumption|]. split; [apply chart_names|].
  intros tr Htr. apply chart_In in Htr as (i & et & He & ->).
  cbn [Go.x Go.y Go.text Go.textposition Go.hovertext trace_of Pd.values].
  rewrite repeat_length, !length_map, length_seq.
  rewrite !part_length by congruence. auto.
Qed.

Lemma trace_arrays_aligned_witness :
  exists fig types,
    Pd.getitem table_gap col_type = inr types /\
    create_timeline table_gap = inr fig /\
    map Go.name (Go.data fig) = Pd.unique types /\
    forall tr, In tr (Go.data fig) ->
      length (Go.y tr) = length (Pd.values (Go.x tr)) /\
      length (Pd.values (Go.text tr)) = length (Pd.values (Go.x tr)) /\
      length (Go.textposition tr) = length (Pd.values (Go.x tr)) /\
      length (Pd.values (Go.hovertext tr)) = length (Pd.values (Go.x tr)) /\
      Pd.values (Go.text tr) = map Pd.strftime_md (Pd.values (Go.x tr)).
Proof.
  apply (trace_arrays_aligned table_gap); vm_compute; reflexivity.
Defined.

(** ** Rows without a category *)

Lemma chart_markers_groups (types dates descs : Pd.Series) :
  length (Pd.values dates) = length (Pd.values types) ->
  length (Pd.values types) = length (Pd.values descs) ->
  flat_map markers (Go.data (chart types dates descs))
  = flat_map (group category Pd.cell_eqb (rows types dates descs))
             (Pd.unique types).
Proof.
  intros L1 L2. unfold chart; cbn [Go.data]. rewrite flat_map_map.
  rewrite (flat_map_agree _
             (fun ie => group category Pd.cell_eqb
                          (rows types dates descs) (snd ie)))
    by (intros; now apply markers_trace_of).
  rewrite <- (flat_map_map (group category Pd.cell_eqb
                              (rows types dates descs)) snd).
  now rewrite enumerate_snd.
Qed.

Lemma group_with_category (l : list row) (k : cell) :
  group category Pd.cell_eqb (with_category l) k
  = group category Pd.cell_eqb l k.
Proof.
  unfold group, with_category.
  induction l as [|r l IH]; cbn [filter]; auto.
  destruct (Pd.is_nan (category r)) eqn:E; cbn [negb filter].
  - rewrite IH. destruct (category r); try discriminate. reflexivity.
  - now rewrite IH.
Qed.

Lemma select_missing (T D : list cell) :
  Pd.select (map (fun a => Pd.cell_eqb a NaN) T) D = [].
Proof.
  revert D; induction T as [|t T IH]; intros D; cbn [map Pd.select].
  - reflexivity.
  - destruct D as [|d D]; [reflexivity|].
    replace (Pd.cell_eqb t NaN) with false by (now destruct t).
    apply IH.
Qed.

(** X7. On a frame the renderer accepts whose category column is an
    object column of texts, with or without gaps, the chart shows
    exactly the rows that have a category:
    the markers of all series are a rearrangement of those rows, their
    number is the number of those rows, and a series named by the
    missing value has no marker. *)
Theorem render_skips_missing_category (df : Pd.DataFrame) :
  renderable df = true ->
  object_categories df = true ->
  exists fig types dates descs,
    Pd.getitem df col_type = inr types /\
    Pd.getitem df col_date = inr dates /\
    Pd.getitem df col_desc = inr descs /\
    create_timeline df = inr fig /\
    Permutation (flat_map markers (Go.data fig))
                (with_category (rows types dates descs)) /\
    list_sum (map (fun tr => length (Pd.values (Go.x tr))) (Go.data fig))
    = length (with_category (rows types dates descs)) /\
    (forall tr, In tr (Go.data fig) -> Go.name tr = NaN ->
                Pd.values (Go.x tr) = []).
Proof.
  intros H Hobj.
  destruct (render_chart df H (object_categories_valid df Hobj))
    as (types & dates & descs & Ht & Hd & Hh & Lt & Ld & Lh & Hc).
  assert (L1 : length (Pd.values dates) = length (Pd.values types))
    by congruence.
  assert (L2 : length (Pd.values types) = length (Pd.values descs))
    by congruence.
  assert (Hperm : Permutation
            (flat_map markers (Go.data (chart types dates descs)))
            (with_category (rows types dates descs))).
  { rewrite chart_markers_groups by assumption.
    rewrite (flat_map_agree _
               (group category Pd.cell_eqb
                  (with_category (rows types dates descs))))
      by (intros; symmetry; apply group_with_category).
    apply groups_partition.
    - apply unique_from_NoDup.
    - intros r Hr. apply filter_In in Hr as [Hr _].
      apply unique_from_In. split; [|intros []].
      rewrite <- (@rows_category _ _ _ L1 L2). now apply in_map.
    - intros r k Hr _. apply filter_In in Hr as [_ Hn].
      split; [apply cell_eqb_true|intros <-].
      apply cell_eqb_refl. intros E. rewrite E in Hn. discriminate. }
  exists (chart types dates descs), types, dates, descs.
  split; [assumption|]. split; [assumption|]. split; [assumption|].
  split; [assumption|]. split; [assumption|]. split.
  - rewrite <- (Permutation_length Hperm), length_flat_map_sum.
    f_equal. apply map_ext_in. intros tr Htr.
    apply chart_In in Htr as (i & et & He & ->).
    symmetry. now apply markers_length.
  - intros tr Htr Hn. apply chart_In in Htr as (i & et & He & ->).
    cbn [Go.name trace_of] in Hn. subst et.
    cbn [Go.x trace_of part Pd.values]. unfold Pd.eq_mask.
    apply select_missing.
Qed.

Lemma render_skips_missing_category_witness :
  exists fig types dates descs,
    Pd.getitem table_gap col_type = inr types /\
    Pd.getitem table_gap col_date = inr dates /\
    Pd.getitem table_gap col_desc = inr descs /\
    create_timeline table_gap = inr fig /\
    Permutation (flat_map markers (Go.data fig))
                (with_category (rows types dates descs)) /\
    list_sum (map (fun tr => length (Pd.values (Go.x tr))) (Go.data fig))
    = length (with_category (rows types dates descs)) /\
    (forall tr, In tr (Go.data fig) -> Go.name tr = NaN ->
                Pd.values (Go.x tr) = []).
Proof.
  apply (render_skips_missing_category table_gap); vm_compute; reflexivity.
Defined.

(** ** Columns the renderer does not read *)

(** X8. The chart depends on the three named columns alone: two frames
    the renderer accepts that agree on the category, date and description
    columns give the same figure, whatever other columns they carry. *)
Theorem chart_reads_three_columns (df df' : Pd.DataFrame) :
  renderable df = true ->
  renderable df' = true ->
  Pd.getitem df col_type = Pd.getitem df' col_type ->
  Pd.getitem df col_date = Pd.getitem df' col_date ->
  Pd.getitem df col_desc = Pd.getitem df' col_desc ->
  create_timeline df = create_timeline df'.
Proof.
  intros H H' Et Ed Eh.
  destruct (render_outcome df H)
    as (types & dates & descs & Ht & Hd & Hh & _ & _ & _ & Hc).
  destruct (render_outcome df' H')
    as (types' & dates' & descs' & Ht' & Hd' & Hh' & _ & _ & _ & Hc').
  rewrite Hc, Hc'.
  assert (types' = types) by congruence.
  assert (dates' = dates) by congruence.
  assert (descs' = descs) by congruence.
  now subst.
Qed.

Lemma chart_reads_three_columns_witness :
  create_timeline table_aba = create_timeline table_aba_notes.
Proof.
  apply (chart_reads_three_columns table_aba table_aba_notes);
    vm_compute; reflexivity.
Defined.

(** ** The colour hash *)

Lemma rgba_mod51 (i : nat) : rgba i = rgba (i mod 51).
Proof.
  pose proof (Nat.div_mod_eq i 51) as D.
  assert (C1 : (i * 70) mod 255 = ((i mod 51) * 70) mod 255).
  { replace (i * 70) with ((i mod 51) * 70 + (i / 51 * 14) * 255) by lia.
    apply Nat.Div0.mod_add. }
  assert (C2 : (i * 120) mod 255 = ((i mod 51) * 120) mod 255).
  { replace (i * 120) with ((i mod 51) * 120 + (i / 51 * 24) * 255) by lia.
    apply Nat.Div0.mod_add. }
  assert (C3 : (i * 180) mod 255 = ((i mod 51) * 180) mod 255).
  { replace (i * 180) with ((i mod 51) * 180 + (i / 51 * 36) * 255) by lia.
    apply Nat.Div0.mod_add. }
  unfold rgba. now rewrite C1, C2, C3.
Qed.

Lemma colours_distinct_51 : colours_distinct_below 51 = true.
Proof. vm_compute. reflexivity. Qed.

Lemma rgba_injective_below_51 (a b : nat) :
  a < 51 -> b < 51 -> rgba a = rgba b -> a = b.
Proof.
  intros Ha Hb E. pose proof colours_distinct_51 as H.
  unfold colours_distinct_below in H. rewrite forallb_forall in H.
  specialize (H a). rewrite forallb_forall in H.
  assert (Ia : In a (seq 0 51)) by (apply in_seq; lia).
  assert (Ib : In b (seq 0 51)) by (apply in_seq; lia).
  specialize (H Ia b Ib).
  apply String.eqb_eq in E. rewrite E in H. cbn [implb] in H.
  now apply Nat.eqb_eq.
Qed.

(** X9. Two ordinals get the same colour exactly when they agree modulo
    51: the first 51 categories have pairwise distinct colours, and the
    category of ordinal [i + 51] repeats the colour of ordinal [i]. *)
Theorem colour_shared_iff (i j : nat) :
  rgba i = rgba j <-> i mod 51 = j mod 51.
Proof.
  split.
  - intros E. rewrite (rgba_mod51 i), (rgba_mod51 j) in E.
    apply rgba_injective_below_51; auto; apply Nat.mod_upper_bound; lia.
  - intros E. now rewrite (rgba_mod51 i), (rgba_mod51 j), E.
Qed.

(** ** The maps of [generate_event_types] *)

Lemma getitem_absent (V : Type) (d : Dict.dict V) (k : cell) :
  ~ In k (map fst d) -> Dict.getitem d k = inl (KeyError k).
Proof.
  induction d as [|[k' v'] d IH]; cbn; intros H; auto.
  destruct (cell_eq_dec k k') as [->|_]; [tauto|].
  apply IH. tauto.
Qed.

(** X10. Whenever the frame has a category column, rendering data or
    not, both maps of [generate_event_types] have exactly the distinct
    categories as keys, in first-seen order, with the lanes [0 .. N-1] and
    the colours of the ordinals as values, and looking up anything that
    is not a category of the table raises [KeyError]. *)
Theorem event_type_maps_domain (df : Pd.DataFrame) (types : Pd.Series) :
  Pd.getitem df col_type = inr types ->
  exists color_map y_position_map,
    generate_event_types df
    = inr (Pd.unique types, color_map, y_position_map) /\
    Dict.keys color_map = Pd.unique types /\
    Dict.keys y_position_map = Pd.unique types /\
    Dict.values y_position_map = seq 0 (length (Pd.unique types)) /\
    Dict.values color_map = map rgba (seq 0 (length (Pd.unique types))) /\
    forall v, ~ In v (Pd.values types) ->
      Dict.getitem color_map v = inl (KeyError v) /\
      Dict.getitem y_position_map v = inl (KeyError v).
Proof.
  intros Ht. rewrite (@generate_event_types_closed df types Ht).
  eexists _, _. split; [reflexivity|].
  unfold Dict.keys, Dict.values. rewrite !map_map. cbn [fst snd].
  rewrite enumerate_snd, enumerate_fst.
  rewrite <- (map_map fst rgba), enumerate_fst.
  repeat split; auto.
  - apply getitem_absent. rewrite map_map; cbn [fst snd].
    rewrite enumerate_snd. intros Hin. apply unique_from_In in Hin. tauto.
  - apply getitem_absent. rewrite map_map; cbn [fst snd].
    rewrite enumerate_snd. intros Hin. apply unique_from_In in Hin. tauto.
Qed.

Lemma event_type_maps_domain_witness :
  exists color_map y_position_map,
    generate_event_types sheet_of_categories
    = inr (Pd.unique (Pd.mkSeries Pd.object [Str "A"; Str "B"; Str "A"]),
           color_map, y_position_map) /\
    Dict.keys color_map
    = Pd.unique (Pd.mkSeries Pd.object [Str "A"; Str "B"; Str "A"]) /\
    Dict.keys y_position_map
    = Pd.unique (Pd.mkSeries Pd.object [Str "A"; Str "B"; Str "A"]) /\
    Dict.values y_position_map
    = seq 0 (length (Pd.unique
                       (Pd.mkSeries Pd.object [Str "A"; Str "B"; Str "A"]))) /\
    Dict.values color_map
    = map rgba
          (seq 0 (length (Pd.unique
                            (Pd.mkSeries Pd.object
                               [Str "A"; Str "B"; Str "A"])))) /\
    forall v, ~ In v [Str "A"; Str "B"; Str "A"] ->
      Dict.getitem color_map v = inl (KeyError v) /\
      Dict.getitem y_position_map v = inl (KeyError v).
Proof.
  apply (@event_type_maps_domain sheet_of_categories
           (Pd.mkSeries Pd.object [Str "A"; Str "B"; Str "A"])).
  reflexivity.
Defined.

(** ** The caption, line by line *)

Lemma concat_cons_char (c : ascii) (g : string) (gs : list string) :
  String.concat "" (String c g :: gs) = String c (String.concat "" (g :: gs)).
Proof. destruct gs; reflexivity. Qed.

(** The characters of a [str], put together again, are the [str]. *)
Lemma py_chars_concat (s : string) : String.concat "" (Py.py_chars s) = s.
Proof.
  induction s as [|c s IH]; [reflexivity|].
  cbn [Py.py_chars]. destruct s as [|c' s']; [reflexivity|].
  destruct (Py.is_continuation c').
  - destruct (Py.py_chars (String c' s')) as [|g gs]; [discriminate|].
    now rewrite concat_cons_char, IH.
  - destruct (Py.py_chars (String c' s')) as [|g gs]; [discriminate|].
    cbn [String.concat]. cbn [String.concat] in IH. now rewrite IH.
Qed.

Lemma fold_left_append (A B : Type) (f : A -> B) (l : list A) (acc : list B) :
  fold_left (fun acc a => acc ++ [f a]) l acc = acc ++ map f l.
Proof.
  revert acc; induction l as [|a l IH]; intros acc; cbn [fold_left map].
  - now rewrite app_nil_r.
  - now rewrite IH, <- app_assoc.
Qed.

Lemma seq_offset (k a n : nat) :
  map (fun j => k + j) (seq a n) = seq (k + a) n.
Proof.
  revert a; induction n as [|n IH]; intros a; cbn [seq map]; auto.
  f_equal. rewrite IH. f_equal. lia.
Qed.

Lemma update_motivational_text_all_words (n_intervals : Z) :
  update_motivational_text n_intervals = all_words caption_text.
Proof.
  unfold update_motivational_text, all_words.
  destruct (_ <=? _)%Z; reflexivity.
Qed.

(** X11. At every tick the caption has one line per sentence of the
    script, in order; the fragments of line [i], put together, spell
    sentence [i] and there is one per character; their animation indices
    run from [i * len] upwards without a gap, and the line starts after
    [2 * i] seconds. *)
Theorem caption_lines_spell_text (n_intervals : Z) (i : nat) (s : string) :
  nth_error caption_text i = Some s ->
  length (update_motivational_text n_intervals) = length caption_text /\
  exists d,
    nth_error (update_motivational_text n_intervals) i = Some d /\
    String.concat "" (map Html.span_children (Html.div_children d)) = s /\
    length (Html.div_children d) = Py.py_len s /\
    map Html.span_style (Html.div_children d)
    = map (fun k => [("--index", k)]) (seq (i * Py.py_len s) (Py.py_len s)) /\
    Html.div_style d
    = [("animationDelay", (Py.str_of_nat (i * 2) ++ "s")%string)].
Proof.
  intros Hi. rewrite update_motivational_text_all_words.
  unfold all_words.
  rewrite (fold_left_append
             (fun i_sentence : nat * string =>
                Html.mkDiv
                  (map (fun j_word : nat * string =>
                          Html.mkSpan (snd j_word) "motivational-word"
                            [("--index",
                              fst i_sentence * Py.py_len (snd i_sentence)
                              + fst j_word)])
                       (Py.enumerate (Py.py_chars (snd i_sentence))))
                  "motivational-line"
                  [("animationDelay",
                    (Py.str_of_nat (fst i_sentence * 2) ++ "s")%string)])).
  cbn [app]. rewrite length_map, enumerate_length. split; [reflexivity|].
  rewrite nth_error_map, (@enumerate_nth _ caption_text i s Hi).
  cbn [option_map fst snd]. eexists. split; [reflexivity|].
  cbn [Html.div_children Html.div_style].
  rewrite !map_map. cbn [Html.span_children Html.span_style].
  rewrite length_map, enumerate_length.
  split; [|split; [reflexivity|split; [|reflexivity]]].
  - rewrite enumerate_snd. apply py_chars_concat.
  - rewrite <- (map_map fst (fun k => [("--index", i * Py.py_len s + k)])).
    rewrite enumerate_fst.
    replace (seq (i * Py.py_len s) (Py.py_len s))
      with (map (fun j => i * Py.py_len s + j) (seq 0 (Py.py_len s)))
      by (rewrite seq_offset; f_equal; lia).
    now rewrite map_map.
Qed.

Lemma caption_lines_spell_text_witness :
  length (update_motivational_text 3) = length caption_text /\
  exists d,
    nth_error (update_motivational_text 3) 1 = Some d /\
    String.concat "" (map Html.span_children (Html.div_children d))
    = "每一滴汗水，每一段努力，都在岁月的河流中留下痕迹。" /\
    length (Html.div_children d)
    = Py.py_len "每一滴汗水，每一段努力，都在岁月的河流中留下痕迹。" /\
    map Html.span_style (Html.div_children d)
    = map (fun k => [("--index", k)])
          (seq (1 * Py.py_len "每一滴汗水，每一段努力，都在岁月的河流中留下痕迹。")
               (Py.py_len "每一滴汗水，每一段努力，都在岁月的河流中留下痕迹。")) /\
    Html.div_style d
    = [("animationDelay", (Py.str_of_nat (1 * 2) ++ "s")%string)].
Proof.
  apply (@caption_lines_spell_text 3%Z 1
           "每一滴汗水，每一段努力，都在岁月的河流中留下痕迹。").
  reflexivity.
Defined.

(** ** Through the store to the chart *)

Lemma getitem_map_series (g : Pd.Series -> Pd.Series) (df : Pd.DataFrame)
    (c : string) :
  Pd.getitem (map (fun cs => (fst cs, g (snd cs))) df) c
  = match Pd.getitem df c with
    | inr s => inr (g s)
    | inl e => inl e
    end.
Proof.
  induction df as [|[c' s'] df IH]; cbn; auto.
  destruct (string_dec c c'); auto.
Qed.

Lemma json_no_timestamp (vs : list cell) :
  existsb Pd.is_timestamp (map json_cell vs) = false.
Proof.
  induction vs as [|v vs IH]; cbn [map existsb]; auto.
  rewrite IH. now destruct v.
Qed.

Lemma infer_json_not_datetime (vs : list cell) :
  Pd.infer_dtype (map json_cell vs) <> Pd.datetime64.
Proof.
  unfold Pd.infer_dtype. rewrite json_no_timestamp. cbn [andb].
  repeat match goal with |- context [if ?b then _ else _] => destruct b end;
    discriminate.
Qed.

Lemma create_timeline_not_datetime (df : Pd.DataFrame)
    (types dates : Pd.Series) :
  Pd.getitem df col_type = inr types ->
  Pd.values types <> [] ->
  Pd.getitem df col_date = inr dates ->
  Pd.dtype_of dates <> Pd.datetime64 ->
  create_timeline df
  = inl (AttributeError "Can only use .dt accessor with datetimelike values").
Proof.
  intros Ht Hne Hd Hdt.
  destruct (unique_head types Hne) as (et & rest & Hu).
  assert (H0 : nth_error (Pd.unique types) 0 = Some et) by (now rewrite Hu).
  destruct (event_type_lookups types 0 H0) as [Hc Hy].
  apply (@create_timeline_first_error df types et rest _ Ht Hu).
  eapply make_trace_not_datetime; eauto.
Qed.

(** What the store hands over for a table with a row is never drawn: the
    dates come back as texts, and the date accessor is refused. *)
Lemma store_delivery_raises (default_events_df df : Pd.DataFrame)
    (types dates : Pd.Series) :
  tabular df = true ->
  Pd.getitem df col_type = inr types ->
  Pd.getitem df col_date = inr dates ->
  update_graph default_events_df (dcc_store (Some (Pd.to_dict_records df)))
  = inl (AttributeError "Can only use .dt accessor with datetimelike values").
Proof.
  intros Htab Ht Hd.
  pose proof (of_records_mapped json_cell df Htab) as E.
  unfold update_graph, dcc_store, events_df_of. cbn [option_map].
  change (Pd.of_records (map json_record (Pd.to_dict_records df)))
    with (Pd.of_records
            (map (fun r : Pd.record =>
                    map (fun kv => (fst kv, json_cell (snd kv))) r)
                 (Pd.to_dict_records df))).
  rewrite E. clear E.
  unfold tabular in Htab.
  apply andb_prop in Htab as [Htab _]. apply andb_prop in Htab as [Hr Hn].
  apply Nat.leb_le in Hn.
  set (g := fun s : Pd.Series =>
              Pd.mkSeries (Pd.infer_dtype (map json_cell (Pd.values s)))
                          (map json_cell (Pd.values s))).
  change (map (fun cs : string * Pd.Series =>
                 (fst cs,
                  Pd.mkSeries
                    (Pd.infer_dtype (map json_cell (Pd.values (snd cs))))
                    (map json_cell (Pd.values (snd cs))))) df)
    with (map (fun cs : string * Pd.Series => (fst cs, g (snd cs))) df).
  apply (@create_timeline_not_datetime _ (g types) (g dates)).
  - rewrite (getitem_map_series g), Ht. reflexivity.
  - unfold g. cbn [Pd.values]. intros E. apply (f_equal (@length cell)) in E.
    rewrite length_map, (@rectangular_column df col_type types Hr Ht) in E.
    cbn in E. lia.
  - rewrite (getitem_map_series g), Hd. reflexivity.
  - unfold g. cbn [Pd.dtype_of]. apply infer_json_not_datetime.
Qed.

(** X2. An upload that parses to an Event Table with a row (columns of
    one length and distinct names, datetime dates, text categories) is
    not drawn: [create_timeline] returns a figure for the parsed sheet
    itself, but [update_graph] receives its records from the store with
    the dates as texts and raises [AttributeError]. *)
Theorem upload_through_store_raises
    (read_excel : excel_source -> result Pd.DataFrame)
    (b64decode : string -> result (list Byte.byte))
    (default_events_df events_df : Pd.DataFrame)
    (contents content_type content_string : string)
    (decoded : list Byte.byte) (filename : option string) :
  Py.split "," contents = [content_type; content_string] ->
  b64decode content_string = inr decoded ->
  read_excel (BytesIO decoded) = inr events_df ->
  tabular events_df = true ->
  renderable events_df = true ->
  text_categories events_df = true ->
  exists data,
    store_file read_excel b64decode default_events_df (Some contents) filename
    = inr data /\
    (exists fig, create_timeline events_df = inr fig) /\
    update_graph default_events_df (dcc_store data)
    = inl (AttributeError "Can only use .dt accessor with datetimelike values").
Proof.
  intros Hs Hb Hr Htab Hren Htx.
  exists (Some (Pd.to_dict_records events_df)).
  destruct (render_chart events_df Hren (text_categories_valid _ Htx))
    as (types & dates & descs & Ht & Hd & _ & _ & _ & _ & Hc).
  split; [|split].
  - unfold store_file. rewrite Hs, Hb. cbn [bind]. now rewrite Hr.
  - eauto.
  - now apply (@store_delivery_raises default_events_df events_df types dates).
Qed.

Lemma upload_through_store_raises_witness :
  exists data,
    store_file (reads_as (inr table_aba)) (decodes_to []) sample_df
               (Some "a,b") None = inr data /\
    (exists fig, create_timeline table_aba = inr fig) /\
    update_graph sample_df (dcc_store data)
    = inl (AttributeError "Can only use .dt accessor with datetimelike values").
Proof.
  apply (@upload_through_store_raises (reads_as (inr table_aba))
           (decodes_to []) sample_df table_aba "a,b" "a" "b" [] None);
    vm_compute; reflexivity.
Defined.

(** X12. When the decode of an upload fails and the default dataset is
    an Event Table with a row, the chart of the default dataset is not
    drawn again: with the empty store [update_graph] returns its figure,
    but for the records [store_file] falls back to, which the store
    hands over with the dates as texts, it raises [AttributeError]. *)
Theorem failed_upload_through_store_raises
    (read_excel : excel_source -> result Pd.DataFrame)
    (b64decode : string -> result (list Byte.byte))
    (default_events_df : Pd.DataFrame)
    (contents content_type content_string : string)
    (decoded : list Byte.byte) (e : exn) (filename : option string) :
  Py.split "," contents = [content_type; content_string] ->
  b64decode content_string = inr decoded ->
  read_excel (BytesIO decoded) = inl e ->
  tabular default_events_df = true ->
  renderable default_events_df = true ->
  text_categories default_events_df = true ->
  exists data,
    store_file read_excel b64decode default_events_df (Some contents) filename
    = inr data /\
    (exists fig, update_graph default_events_df (dcc_store None) = inr fig) /\
    update_graph default_events_df (dcc_store data)
    = inl (AttributeError "Can only use .dt accessor with datetimelike values").
Proof.
  intros Hs Hb Hr Htab Hren Htx.
  exists (Some (Pd.to_dict_records default_events_df)).
  destruct (render_chart default_events_df Hren (text_categories_valid _ Htx))
    as (types & dates & descs & Ht & Hd & _ & _ & _ & _ & Hc).
  split; [|split].
  - unfold store_file. rewrite Hs, Hb. cbn [bind]. now rewrite Hr.
  - unfold update_graph, dcc_store. cbn [option_map events_df_of]. eauto.
  - now apply (@store_delivery_raises default_events_df default_events_df
                 types dates).
Qed.

Lemma failed_upload_through_store_raises_witness :
  exists data,
    store_file (reads_as (inl (LibraryError "File is not a zip file")))
               (decodes_to []) sample_df (Some "a,b") None = inr data /\
    (exists fig, update_graph sample_df (dcc_store None) = inr fig) /\
    update_graph sample_df (dcc_store data)
    = inl (AttributeError "Can only use .dt accessor with datetimelike values").
Proof.
  apply (@failed_upload_through_store_raises
           (reads_as (inl (LibraryError "File is not a zip file")))
           (decodes_to []) sample_df "a,b" "a" "b" []
           (LibraryError "File is not a zip file") None);
    vm_compute; reflexivity.
Defined.

(** ** The layout *)

Lemma make_trace_name (df : Pd.DataFrame) (cm : Dict.dict string)
    (ym : Dict.dict nat) (et : cell) (tr : Go.Scatter) :
  make_trace df cm ym et = inr tr -> Go.name tr = et.
Proof.
  unfold make_trace, bind.
  destruct (Pd.getitem df col_type); [discriminate|].
  destruct (Pd.getitem _ col_date); [discriminate|].
  destruct (Dict.getitem ym et); [discriminate|].
  destruct (Pd.dt_strftime_md _); [discriminate|].
  destruct (Pd.getitem _ col_desc); [discriminate|].
  destruct (Dict.getitem cm et); [discriminate|].
  unfold Go.Scatter_new. cbn [Go.name].
  destruct (Go.name_valid _ et); [|discriminate].
  intros [= <-]. reflexivity.
Qed.

Lemma add_traces_shape (df : Pd.DataFrame) (cm : Dict.dict string)
    (ym : Dict.dict nat) (ets : list cell) (fig fig' : Go.Figure) :
  add_traces df cm ym ets fig = inr fig' ->
  exists traces,
    fig' = Go.mkFigure (Go.data fig ++ traces) (Go.layout fig) /\
    map Go.name traces = ets.
Proof.
  revert fig; induction ets as [|et rest IH]; intros fig H.
  - cbn in H. injection H as <-. exists []. rewrite app_nil_r.
    now destruct fig.
  - cbn [add_traces] in H.
    destruct (make_trace df cm ym et) as [e|tr] eqn:Htr; [discriminate|].
    cbn [bind] in H. apply IH in H as (traces & -> & Hn).
    exists (tr :: traces). cbn [Go.add_trace Go.data Go.layout map].
    rewrite <- app_assoc. cbn [app].
    rewrite (make_trace_name _ _ _ _ Htr). split; congruence.
Qed.

(** X13. Every figure the renderer returns carries the same layout but
    for the category axis: the visible date range is the constant
    2023-01-01 to 2024-12-31, never taken from the dates of the table,
    title, theme and height are fixed, and the category axis has one tick
    per series, at the lane of the series and labelled with its name. *)
Theorem layout_fixed (df : Pd.DataFrame) (fig : Go.Figure) :
  create_timeline df = inr fig ->
  exists lay,
    Go.layout fig = Some lay /\
    Go.xaxis_range lay = Some ("2023-01-01", "2024-12-31") /\
    lay = layout_of (map Go.name (Go.data fig)) /\
    Go.tickvals (Go.yaxis lay) = seq 0 (length (Go.data fig)) /\
    Go.ticktext (Go.yaxis lay) = map Go.name (Go.data fig).
Proof.
  intros H. unfold create_timeline in H.
  destruct (Pd.getitem df col_type) as [e|types] eqn:Ht.
  { unfold generate_event_types in H. rewrite Ht in H. discriminate. }
  rewrite (@generate_event_types_closed df types Ht) in H. cbn [bind] in H.
  match type of H with context [add_traces ?d ?cm ?ym ?ets ?f] =>
    destruct (add_traces d cm ym ets f) as [e|fig0] eqn:Ha end;
    [discriminate|].
  apply add_traces_shape in Ha as (traces & -> & Hn).
  cbn [bind ret] in H. injection H as <-.
  cbn [Go.update_xaxes Go.data Go.layout Go.Figure_new app].
  unfold Dict.values, Dict.keys. rewrite !map_map. cbn [fst snd].
  rewrite enumerate_fst, enumerate_snd, Hn.
  eexists. split; [reflexivity|].
  cbn [Go.xaxis_range Go.yaxis Go.tickvals Go.ticktext Go.title Go.title_x
       Go.xaxis_title Go.plot_bgcolor Go.hovermode Go.showlegend Go.template
       Go.height Go.autosize].
  rewrite <- Hn, length_map.
  split; [reflexivity|]. split; [|split; reflexivity].
  unfold layout_of. now rewrite length_map.
Qed.

Lemma layout_fixed_witness :
  exists lay,
    Go.layout figure_aba = Some lay /\
    Go.xaxis_range lay = Some ("2023-01-01", "2024-12-31") /\
    lay = layout_of (map Go.name (Go.data figure_aba)) /\
    Go.tickvals (Go.yaxis lay) = seq 0 (length (Go.data figure_aba)) /\
    Go.ticktext (Go.yaxis lay) = map Go.name (Go.data figure_aba).
Proof.
  apply (@layout_fixed table_aba figure_aba). vm_compute. reflexivity.
Defined.
